(** * OllamaTester: a connectivity probe for an Ollama server

    A shallow embedding of [src/Ollama/OllamaTester.py].  The probe is glue
    around four external facilities: the socket layer, the DNS resolver, the
    [subprocess] module running the system ping, and the [requests] HTTP
    client.  Every use of a facility is a [call] answered by a [world]; the
    methods of the class are programs over these calls, with Python's
    exceptions and [try]/[except] kept explicit. *)

From Stdlib Require Import ZArith String Ascii DecimalString SpecFloat List Bool Lia.
From Stdlib.Strings Require Import Byte.
From stdpp Require Import base strings gmap.

Local Open Scope Z_scope.
Local Open Scope string_scope.

(** ** The Python runtime the probe relies on *)

Module Py.

(** The exception classes the probe can meet, with the base classes Python
    and [requests] give them. *)
Inductive exn_class : Type :=
| BaseException | KeyboardInterrupt | SystemExit | Exception
| OSError | FileNotFoundError | PermissionError | gaierror
| SubprocessError | TimeoutExpired
| ValueError | TypeError | AttributeError | UnicodeError
| RequestException | ConnectionError | HTTPError | Timeout
| ConnectTimeout | ReadTimeout | InvalidJSONError | JSONDecodeError.

#[export] Instance exn_class_eq_dec : EqDecision exn_class.
Proof. solve_decision. Defined.

Definition bases (c : exn_class) : list exn_class :=
  match c with
  | BaseException => []
  | KeyboardInterrupt | SystemExit | Exception => [BaseException]
  | OSError | SubprocessError | ValueError | TypeError | AttributeError =>
      [Exception]
  | FileNotFoundError | PermissionError | gaierror => [OSError]
  | TimeoutExpired => [SubprocessError]
  | UnicodeError => [ValueError]
  | RequestException => [OSError]
  | ConnectionError | HTTPError | Timeout | InvalidJSONError =>
      [RequestException]
  | ConnectTimeout => [ConnectionError; Timeout]
  | ReadTimeout => [Timeout]
  | JSONDecodeError => [InvalidJSONError; ValueError]
  end.

Fixpoint issubclass_upto (depth : nat) (c d : exn_class) : bool :=
  bool_decide (c = d) ||
  match depth with
  | O => false
  | S depth' => existsb (fun b => issubclass_upto depth' b d) (bases c)
  end.

(** The hierarchy above is five levels deep. *)
Definition issubclass : exn_class -> exn_class -> bool := issubclass_upto 5.

(** A raised exception: its class and the text [str(e)] gives. *)
Record exn : Type := Exn { exn_type : exn_class; exn_str : string }.

Definition isinstance (e : exn) (c : exn_class) : bool :=
  issubclass (exn_type e) c.
Arguments isinstance : simpl never.

(** What evaluating an expression gives: a value or a raised exception. *)
Inductive outcome (A : Type) : Type :=
| Ret (a : A)
| Raise (e : exn).
Arguments Ret {A} a.
Arguments Raise {A} e.

(** The objects [response.json()] can build. A [PyDict] lists its items
    in insertion order; a lookup takes the first item with the key. *)
#[warnings="-register-all"]
Inductive pyobj : Type :=
| PyNone
| PyBool (b : bool)
| PyInt (n : Z)
| PyFloat (f : spec_float)
| PyStr (s : string)
| PyList (xs : list pyobj)
| PyDict (items : list (string * pyobj)).

Fixpoint dict_lookup (items : list (string * pyobj)) (key : string)
  : option pyobj :=
  match items with
  | [] => None
  | (k, v) :: rest => if String.eqb k key then Some v else dict_lookup rest key
  end.

Definition type_name (o : pyobj) : string :=
  match o with
  | PyNone => "NoneType" | PyBool _ => "bool" | PyInt _ => "int"
  | PyFloat _ => "float" | PyStr _ => "str" | PyList _ => "list"
  | PyDict _ => "dict"
  end.

Definition no_attribute (o : pyobj) (attr : string) : exn :=
  Exn AttributeError
      ("'" +:+ type_name o +:+ "' object has no attribute '" +:+ attr +:+ "'").

(** [o.get(key, default)]: only a dict has the method. *)
Definition get (o : pyobj) (key : string) (default : pyobj) : outcome pyobj :=
  match o with
  | PyDict items =>
      Ret (match dict_lookup items key with Some v => v | None => default end)
  | _ => Raise (no_attribute o "get")
  end.

Fixpoint chars (s : string) : list pyobj :=
  match s with
  | EmptyString => []
  | String a rest => PyStr (String a EmptyString) :: chars rest
  end.

(** The elements a [for] loop over [o] visits: the items of a list, the
    keys of a dict, the characters of a string. *)
Definition iter (o : pyobj) : outcome (list pyobj) :=
  match o with
  | PyList xs => Ret xs
  | PyDict items => Ret (map (fun kv => PyStr (fst kv)) items)
  | PyStr s => Ret (chars s)
  | _ => Raise (Exn TypeError
                    ("'" +:+ type_name o +:+ "' object is not iterable"))
  end.

(** [o == s] for a string [s]. *)
Definition eq_str (o : pyobj) (s : string) : bool :=
  match o with
  | PyStr t => String.eqb t s
  | _ => false
  end.

(** [str(n)] for an int. *)
Definition str_of_int (n : Z) : string := NilZero.string_of_int (Z.to_int n).

(** [f"{x}"] for a value that is a string or [None]. *)
Definition format_opt (x : option string) : string :=
  match x with
  | Some s => s
  | None => "None"
  end.

(** [s.startswith(prefixes)] with a tuple of prefixes. *)
Definition startswith (s : string) (prefixes : list string) : bool :=
  existsb (fun p => String.prefix p s) prefixes.

Definition lower_ascii (a : ascii) : ascii :=
  let n := N_of_ascii a in
  if ((65 <=? n) && (n <=? 90))%N then ascii_of_N (n + 32) else a.

(** [s.lower()], on ASCII text. *)
Fixpoint lower (s : string) : string :=
  match s with
  | EmptyString => EmptyString
  | String a rest => String (lower_ascii a) (lower rest)
  end.

End Py.
Import Py.

(** ** The external facilities *)

(** What [subprocess.run] hands back. *)
Record CompletedProcess : Type :=
  { returncode : Z; stdout : string; stderr : string }.

(** What [requests] hands back: the status code, and what [response.json()]
    will give (the decoded body, or the exception decoding raises). *)
Record Response : Type :=
  { status_code : Z; json : outcome pyobj }.

(** An IPv4 address, as its four octets. *)
Definition ipv4 : Type := (byte * byte * byte * byte)%type.

Definition octet (b : byte) : Z := Z.of_N (Byte.to_N b).

(** The address as a 32-bit number, first octet in the high bits. *)
Definition ipv4_to_Z (a : ipv4) : Z :=
  let '(o1, o2, o3, o4) := a in
  Z.shiftl (octet o1) 24 + Z.shiftl (octet o2) 16 + Z.shiftl (octet o3) 8
  + octet o4.

(** The dotted-decimal text of an address, as the socket layer prints it. *)
Definition inet_ntoa (a : ipv4) : string :=
  let '(o1, o2, o3, o4) := a in
  str_of_int (octet o1) +:+ "." +:+ str_of_int (octet o2) +:+ "."
    +:+ str_of_int (octet o3) +:+ "." +:+ str_of_int (octet o4).

(** A connected socket, named by its descriptor. *)
Definition socket : Type := nat.

(** The calls that leave the program.  [socket_close] is the socket API's
    release operation. *)
Inductive call : Type :=
| time_time
| socket_create_connection (address : string * Z) (timeout : Z)
| socket_close (sock : socket)
| socket_gethostbyname (hostname : option string)
| platform_system
| subprocess_run (args : list (option string)) (timeout : Z)
| requests_request (method url : string) (body : option pyobj) (timeout : Z).

Definition value (c : call) : Type :=
  match c with
  | time_time => spec_float
  | socket_create_connection _ _ => socket
  | socket_close _ => unit
  | socket_gethostbyname _ => ipv4
  | platform_system => string
  | subprocess_run _ _ => CompletedProcess
  | requests_request _ _ _ _ => Response
  end.

(** Reading the clock gives a value; every other call may raise instead of
    returning. *)
Definition answer (c : call) : Type :=
  match c with
  | time_time => spec_float
  | _ => outcome (value c)
  end.

(** A world answers calls, and may change with each of them. *)
Record world : Type :=
  { world_state : Type;
    respond : forall c : call, world_state -> answer c * world_state }.

(** ** Programs over the facilities *)

Inductive prog (A : Type) : Type :=
| Return (a : A)
| Throw (e : exn)
| Perform (c : call) (k : answer c -> prog A).
Arguments Return {A} a.
Arguments Throw {A} e.
Arguments Perform {A} c k.

Fixpoint bind {A B : Type} (m : prog A) (f : A -> prog B) : prog B :=
  match m with
  | Return a => f a
  | Throw e => Throw e
  | Perform c k => Perform c (fun x => bind (k x) f)
  end.

Notation "'let*' x := m 'in' k" := (bind m (fun x => k))
  (at level 10, x pattern, m at level 200, k at level 200,
   format "'[v' 'let*'  x  :=  m  'in' '/' k ']'").

(** Evaluating an expression that may raise. *)
Definition lift {A : Type} (o : outcome A) : prog A :=
  match o with
  | Ret a => Return a
  | Raise e => Throw e
  end.

(** Calling a facility: its exception, if any, is raised at the call. *)
Definition invoke (c : call) : prog (value c) :=
  Perform c (match c return answer c -> prog (value c) with
             | time_time => Return
             | _ => lift
             end).

(** [try: body except ...:], the clauses as a function from the exception
    to the handler that takes it, [None] when no clause matches. *)
Fixpoint try_except {A : Type} (body : prog A) (clauses : exn -> option (prog A))
  : prog A :=
  match body with
  | Return a => Return a
  | Throw e => match clauses e with
               | Some handler => handler
               | None => Throw e
               end
  | Perform c k => Perform c (fun x => try_except (k x) clauses)
  end.

(** [except C1 as e: h1  except C2 as e: h2 ...]: the first clause whose
    class the exception is an instance of. *)
Fixpoint except {A : Type} (clauses : list (exn_class * (exn -> prog A))) (e : exn)
  : option (prog A) :=
  match clauses with
  | [] => None
  | (cls, handler) :: rest =>
      if isinstance e cls then Some (handler e) else except rest e
  end.

(** A [try] whose body first rebinds a local variable the handlers read:
    the handlers see the old value while [rebind] runs and the new value
    during [rest]. *)
Definition try_rebinding {S A : Type} (old : S) (rebind : prog S)
    (rest : S -> prog A) (clauses : S -> exn -> option (prog A)) : prog A :=
  let* r := try_except (let* s := rebind in Return (inl s))
                       (fun e => option_map (fun h => let* a := h in Return (inr a))
                                            (clauses old e)) in
  match r with
  | inl s => try_except (rest s) (clauses s)
  | inr a => Return a
  end.

(** Running a program in a world: its outcome and the world it leaves. *)
Fixpoint run (E : world) {A : Type} (p : prog A) (w : world_state E)
  : outcome A * world_state E :=
  match p with
  | Return a => (Ret a, w)
  | Throw e => (Raise e, w)
  | Perform c k => let (x, w') := respond E c w in run E (k x) w'
  end.

(** The calls a run makes, in order. *)
Fixpoint calls (E : world) {A : Type} (p : prog A) (w : world_state E)
  : list call :=
  match p with
  | Return _ | Throw _ => []
  | Perform c k => let (x, w') := respond E c w in c :: calls E (k x) w'
  end.

(** The exception a facility answered a call with, if it did. *)
Definition fault (c : call) : answer c -> list exn :=
  match c return answer c -> list exn with
  | time_time => fun _ => []
  | _ => fun a => match a with
                  | Ret _ => []
                  | Raise e => [e]
                  end
  end.

(** The exceptions the facilities raise during a run, in order. *)
Fixpoint faults (E : world) {A : Type} (p : prog A) (w : world_state E)
  : list exn :=
  match p with
  | Return _ | Throw _ => []
  | Perform c k =>
      let (x, w') := respond E c w in (fault c x ++ faults E (k x) w')%list
  end.

(** ** The probe *)

Inductive ConnectionStatus : Type :=
| CONNECTED
| NO_INTERNET
| SERVER_UNREACHABLE
| MODEL_NOT_LOADED
| AUTHENTICATION_FAILED
| TIMEOUT
| RESOURCE_UNAVAILABLE
| REMOTE_SERVER_UNREACHABLE
| UNKNOWN_ERROR.

(** The attributes [__init__] sets (the logger is never used). *)
Record OllamaTester : Type :=
  { base_url : string; timeout : Z; is_remote : bool }.

(** The locality flag of the specification is the negation of the stored
    attribute. *)
Definition is_local (self : OllamaTester) : bool := negb (is_remote self).

(** An entry of [results["details"]]. *)
Record check_detail : Type := { available : bool; message : string }.

(** The dictionary [test_connection] returns. *)
Record connection_results : Type :=
  { timestamp : spec_float;
    status : ConnectionStatus;
    details : gmap string check_detail }.

Definition set_detail (key : string) (d : check_detail) (r : connection_results)
  : connection_results :=
  {| timestamp := timestamp r; status := status r;
     details := <[key := d]> (details r) |}.

Definition set_status (s : ConnectionStatus) (r : connection_results)
  : connection_results :=
  {| timestamp := timestamp r; status := s; details := details r |}.

(** The values stored under [status["tests"]]: a bare flag for the internet
    check, a dictionary with [available] for the remote check and one with
    [success] for each endpoint. *)
Inductive test_entry : Type :=
| InternetFlag (flag : bool)
| RemoteEntry (avail : bool) (msg : string)
| EndpointEntry (success : bool) (msg : string).

(** The dictionary [get_detailed_status] returns. *)
Record detailed_status : Type :=
  { ds_timestamp : spec_float;
    ds_base_url : string;
    ds_timeout : Z;
    ds_is_remote : bool;
    tests : gmap string test_entry }.

Definition set_test (key : string) (t : test_entry) (s : detailed_status)
  : detailed_status :=
  {| ds_timestamp := ds_timestamp s; ds_base_url := ds_base_url s;
     ds_timeout := ds_timeout s; ds_is_remote := ds_is_remote s;
     tests := <[key := t]> (tests s) |}.

(** Where a block of statements leaves the enclosing function: at a
    [return], or at its end with the local state. *)
Inductive flow (S R : Type) : Type :=
| Next (s : S)
| Returned (r : R).
Arguments Next {S R} s.
Arguments Returned {S R} r.

(** [x in names], for an [x] that is a string or [None]. *)
Definition among (x : option string) (names : list string) : bool :=
  match x with
  | Some s => existsb (String.eqb s) names
  | None => false
  end.

(** The prefixes [_is_local_url] looks for in the resolved address. *)
Definition local_prefixes : list string :=
  ["127."; "192.168."; "10."; "172.16."; "172.17."; "172.18."; "172.19.";
   "172.20."; "172.21."; "172.22."; "172.23."; "172.24."; "172.25.";
   "172.26."; "172.27."; "172.28."; "172.29."; "172.30."; "172.31."].

(** [socket.gethostbyname(hostname)]: the address the resolver finds, in the
    dotted-decimal text the function returns. *)
Definition gethostbyname (hostname : option string) : prog string :=
  let* address := invoke (socket_gethostbyname hostname) in
  Return (inet_ntoa address).

(** [requests.get(url, timeout=t)] is [requests.request("get", url, ...)]. *)
Definition requests_get (url : string) (t : Z) : prog Response :=
  invoke (requests_request "get" url None t).

(** What [urlparse(url).hostname] gives: the host name, [None] when the URL
    has none, or a [ValueError] with its text on a malformed URL. *)
Inductive parsed_host : Type :=
| Hostname (h : option string)
| InvalidURL (text : string).

Definition hostname_of (p : parsed_host) : prog (option string) :=
  match p with
  | Hostname h => Return h
  | InvalidURL text => Throw (Exn ValueError text)
  end.

Section Probe.

(** [urlparse(url).hostname], from [urllib.parse]. *)
Variable urlparse_hostname : string -> parsed_host.

Definition _is_local_url (url : string) : prog bool :=
  let* hostname := hostname_of (urlparse_hostname url) in
  if among hostname ["localhost"; "127.0.0.1"] then Return true
  else
    try_except
      (let* ip := gethostbyname hostname in
       Return (startswith ip local_prefixes))
      (except [(gaierror, fun _ => Return false)]).

Definition __init__ (url : string) (t : Z) : prog OllamaTester :=
  let* is_local_url := _is_local_url url in
  Return {| base_url := url; timeout := t; is_remote := negb is_local_url |}.

Definition ping_clauses (host : option string)
  : exn -> option (prog (bool * string)) :=
  except
    [(TimeoutExpired,
      fun _ => Return (false, "Ping timeout for " +:+ format_opt host));
     (Exception,
      fun e => Return (false, "Error pinging " +:+ format_opt host +:+ ": "
                                +:+ exn_str e))].

Definition ping_host (self : OllamaTester) (host : option string) (count : Z)
  : prog (bool * string) :=
  try_rebinding host
    (match host with
     | Some h =>
         if startswith h ["http://"; "https://"]
         then hostname_of (urlparse_hostname h)
         else Return host
     | None => Throw (no_attribute PyNone "startswith")
     end)
    (fun host =>
       let* system := invoke platform_system in
       let ping_cmd :=
         if String.eqb (lower system) "windows"
         then [Some "ping"; Some "-n"; Some (str_of_int count); host]
         else [Some "ping"; Some "-c"; Some (str_of_int count); host] in
       let* result := invoke (subprocess_run ping_cmd (timeout self)) in
       if (returncode result =? 0)%Z
       then Return (true, "Successfully pinged " +:+ format_opt host)
       else Return (false, "Failed to ping " +:+ format_opt host +:+ ": "
                             +:+ stderr result))
    ping_clauses.

Definition check_remote_server (self : OllamaTester) : prog (bool * string) :=
  if negb (is_remote self)
  then Return (true, "Local server, no ping test needed")
  else
    let* host := hostname_of (urlparse_hostname (base_url self)) in
    let* (ping_success, ping_message) := ping_host self host 4 in
    if negb ping_success
    then Return (false, "Remote server ping failed: " +:+ ping_message)
    else Return (true, "Remote server is reachable").

Definition check_internet_connectivity (self : OllamaTester) : prog bool :=
  try_except
    (let* _ := invoke (socket_create_connection ("8.8.8.8", 53) 3) in
     Return true)
    (except [(OSError, fun _ => Return false)]).

Definition check_server_availability (self : OllamaTester)
  : prog (bool * string) :=
  try_except
    (let* response := requests_get (base_url self +:+ "/api/tags") (timeout self) in
     if (status_code response =? 200)%Z
     then Return (true, "Server is available and responding")
     else Return (false, "Server returned status code: "
                           +:+ str_of_int (status_code response)))
    (except
       [(RequestException,
         fun e => Return (false, "Server is not reachable: " +:+ exn_str e))]).

(** The loop of [check_model_status] over the entries of [models]. *)
Fixpoint find_model (model_name : string) (models : list pyobj)
  : prog (bool * string) :=
  match models with
  | [] => Return (false, "Model " +:+ model_name +:+ " is not loaded")
  | model :: rest =>
      let* name := lift (get model "name" PyNone) in
      if eq_str name model_name
      then Return (true, "Model " +:+ model_name +:+ " is available")
      else find_model model_name rest
  end.

Definition check_model_status (self : OllamaTester) (model_name : string)
  : prog (bool * string) :=
  try_except
    (let* response := requests_get (base_url self +:+ "/api/tags") (timeout self) in
     if (status_code response =? 200)%Z
     then
       let* body := lift (json response) in
       let* models := lift (get body "models" (PyList [])) in
       let* entries := lift (iter models) in
       find_model model_name entries
     else Return (false, "Failed to check model status: "
                           +:+ str_of_int (status_code response)))
    (except
       [(RequestException,
         fun e => Return (false, "Error checking model status: " +:+ exn_str e))]).

Definition test_connection (self : OllamaTester) : prog connection_results :=
  let* now := invoke time_time in
  let results :=
    {| timestamp := now; status := UNKNOWN_ERROR; details := ∅ |} in
  let* has_internet := check_internet_connectivity self in
  let results :=
    set_detail "internet"
      {| available := has_internet;
         message := if has_internet then "Internet is available"
                    else "No internet connection" |} results in
  if negb has_internet then Return (set_status NO_INTERNET results)
  else
    let* remote :=
      (if is_remote self
       then
         let* (remote_available, remote_message) := check_remote_server self in
         let results :=
           set_detail "remote"
             {| available := remote_available; message := remote_message |}
             results in
         if negb remote_available
         then Return (Returned (set_status REMOTE_SERVER_UNREACHABLE results))
         else Return (Next results)
       else Return (Next results)) in
    match remote with
    | Returned r => Return r
    | Next results =>
        let* (server_available, server_message) :=
          check_server_availability self in
        let results :=
          set_detail "server"
            {| available := server_available; message := server_message |}
            results in
        if negb server_available
        then Return (set_status SERVER_UNREACHABLE results)
        else
          let* (model_available, model_message) :=
            check_model_status self "llama2" in
          let results :=
            set_detail "model"
              {| available := model_available; message := model_message |}
              results in
          if negb model_available
          then Return (set_status MODEL_NOT_LOADED results)
          else Return (set_status CONNECTED results)
    end.

Definition test_endpoint (self : OllamaTester) (endpoint method : string)
    (data : option pyobj) : prog (bool * string) :=
  try_except
    (let url := base_url self +:+ endpoint in
     let* response := invoke (requests_request method url data (timeout self)) in
     if (status_code response =? 401)%Z then Return (false, "Authentication failed")
     else if (status_code response =? 404)%Z then Return (false, "Endpoint not found")
     else if (status_code response >=? 500)%Z
     then Return (false, "Server error: " +:+ str_of_int (status_code response))
     else if (status_code response >=? 400)%Z
     then Return (false, "Request failed: " +:+ str_of_int (status_code response))
     else Return (true, "Endpoint test successful: "
                          +:+ str_of_int (status_code response)))
    (except
       [(Timeout, fun _ => Return (false, "Request timed out"));
        (RequestException,
         fun e => Return (false, "Request failed: " +:+ exn_str e))]).

Definition endpoints : list string :=
  ["/api/tags"; "/api/version"; "/api/health"].

(** The loop of [get_detailed_status] over the endpoints. *)
Fixpoint test_endpoints (self : OllamaTester) (todo : list string)
    (st : detailed_status) : prog detailed_status :=
  match todo with
  | [] => Return st
  | endpoint :: rest =>
      let* (success, message) := test_endpoint self endpoint "GET" None in
      test_endpoints self rest
        (set_test endpoint (EndpointEntry success message) st)
  end.

Definition get_detailed_status (self : OllamaTester) : prog detailed_status :=
  let* now := invoke time_time in
  let st :=
    {| ds_timestamp := now; ds_base_url := base_url self;
       ds_timeout := timeout self; ds_is_remote := is_remote self;
       tests := ∅ |} in
  let* internet := check_internet_connectivity self in
  let st := set_test "internet" (InternetFlag internet) st in
  let* st :=
    (if is_remote self
     then
       let* (remote_available, remote_message) := check_remote_server self in
       Return (set_test "remote" (RemoteEntry remote_available remote_message) st)
     else Return st) in
  test_endpoints self endpoints st.

End Probe.

(** ** The vocabulary of the specification *)

(** The request both [check_server_availability] and [check_model_status]
    send. *)
Definition tags_request (self : OllamaTester) : call :=
  requests_request "get" (base_url self +:+ "/api/tags") None (timeout self).

(** The network failures of the HTTP client are the instances of
    [RequestException]; the failures of running a process are the instances
    of [OSError] and of [SubprocessError]. *)
Definition network_exception (e : exn) : bool := isinstance e RequestException.

Definition process_exception (e : exn) : bool :=
  isinstance e OSError || isinstance e SubprocessError.

Definition is_dict (o : pyobj) : bool :=
  match o with
  | PyDict _ => true
  | _ => false
  end.

(** An entry of the models array whose name field is exactly [name]. *)
Definition entry_named (name : string) (entry : pyobj) : bool :=
  match entry with
  | PyDict fields =>
      match dict_lookup fields "name" with
      | Some (PyStr s) => String.eqb s name
      | _ => false
      end
  | _ => false
  end.

(** The body's models array contains an entry named [name]. *)
Definition lists_model (body : pyobj) (name : string) : bool :=
  match body with
  | PyDict items =>
      match dict_lookup items "models" with
      | Some (PyList entries) => existsb (entry_named name) entries
      | _ => false
      end
  | _ => false
  end.

(** The request yields HTTP 200 and a body that lists the model. *)
Definition tags_list_model (a : outcome Response) (name : string) : bool :=
  match a with
  | Ret response =>
      (status_code response =? 200)%Z &&
      match json response with
      | Ret body => lists_model body name
      | Raise _ => false
      end
  | Raise _ => false
  end.

(** The scan of the models array reaches an entry named [name]: such an
    entry exists and every entry before the first one is an object. *)
Fixpoint first_match (name : string) (entries : list pyobj) : bool :=
  match entries with
  | [] => false
  | entry :: rest =>
      is_dict entry && (entry_named name entry || first_match name rest)
  end.

(** An entry that is not an object comes before any entry named [name]. *)
Fixpoint stray_before_match (name : string) (entries : list pyobj) : bool :=
  match entries with
  | [] => false
  | entry :: rest =>
      negb (is_dict entry)
      || (negb (entry_named name entry) && stray_before_match name rest)
  end.

(** A models value the scan breaks on: null, a boolean or a number (not
    iterable), a non-empty string or a non-empty object (their elements are
    strings), or an array with a stray entry before any match. *)
Definition breaks_scan (name : string) (models : pyobj) : bool :=
  match models with
  | PyList entries => stray_before_match name entries
  | PyDict [] => false
  | PyStr EmptyString => false
  | _ => true
  end.

(** The request yields HTTP 200 and a JSON object whose models array has an
    entry named [name] that the scan reaches. *)
Definition tags_reach_model (a : outcome Response) (name : string) : bool :=
  match a with
  | Ret response =>
      (status_code response =? 200)%Z &&
      match json response with
      | Ret (PyDict items) =>
          match dict_lookup items "models" with
          | Some (PyList entries) => first_match name entries
          | _ => false
          end
      | _ => false
      end
  | Raise _ => false
  end.

(** The answers on which [check_model_status] raises: the client raises an
    exception that is not a [RequestException], at the request or when
    decoding a 200 body; or the 200 body is not an object; or its models
    value breaks the scan. *)
Definition tags_break_scan (a : outcome Response) (name : string) : bool :=
  match a with
  | Ret response =>
      (status_code response =? 200)%Z &&
      match json response with
      | Ret (PyDict items) =>
          match dict_lookup items "models" with
          | Some models => breaks_scan name models
          | None => false
          end
      | Ret _ => true
      | Raise e => negb (network_exception e)
      end
  | Raise e => negb (network_exception e)
  end.

(** The body the tags endpoint is expected to send: an object whose models
    field, when present, is an array of objects. *)
Definition expected_tags_body (body : pyobj) : bool :=
  match body with
  | PyDict items =>
      match dict_lookup items "models" with
      | Some (PyList entries) => forallb is_dict entries
      | Some _ => false
      | None => true
      end
  | _ => false
  end.

(** An answer of the HTTP client within its contract: a failure of the
    request or of decoding the body is a [RequestException], and a decoded
    body of a 200 response has the expected shape. *)
Definition expected_tags_answer (a : outcome Response) : bool :=
  match a with
  | Ret response =>
      if (status_code response =? 200)%Z
      then match json response with
           | Ret body => expected_tags_body body
           | Raise e => network_exception e
           end
      else true
  | Raise e => network_exception e
  end.

(** The host [ping_host] pings for the argument [h]: the host name of [h]
    when [h] is an http or https URL, [h] itself otherwise. *)
Definition ping_target (urlparse_hostname : string -> parsed_host) (h : string)
  : parsed_host :=
  if startswith h ["http://"; "https://"] then urlparse_hostname h
  else Hostname (Some h).

(** The command line [ping_host] builds. *)
Definition ping_command (system_name : string) (count : Z) (target : option string)
  : list (option string) :=
  [Some "ping"; Some (if String.eqb (lower system_name) "windows" then "-n" else "-c");
   Some (str_of_int count); target].

(** The statuses [test_connection] assigns before it returns. *)
Definition produced_statuses : list ConnectionStatus :=
  [CONNECTED; NO_INTERNET; REMOTE_SERVER_UNREACHABLE; SERVER_UNREACHABLE; MODEL_NOT_LOADED].


(** ** Networks and scripted worlds *)

(** A network in CIDR notation: its base address and prefix length. *)
Definition in_network (a : ipv4) (net : ipv4 * Z) : bool :=
  let '(base, bits) := net in
  (Z.shiftr (ipv4_to_Z a) (32 - bits) =? Z.shiftr (ipv4_to_Z base) (32 - bits))%Z.

(** 127.0.0.0/8, 10.0.0.0/8, 172.16.0.0/12 and 192.168.0.0/16. *)
Definition private_networks : list (ipv4 * Z) :=
  [((x7f, x00, x00, x00), 8); ((x0a, x00, x00, x00), 8);
   ((xac, x10, x00, x00), 12); ((xc0, xa8, x00, x00), 16)].

Definition in_private_range (a : ipv4) : bool :=
  existsb (in_network a) private_networks.

(** The private ranges, read on the first two octets of an address. *)
Definition local_octets (x y : Z) : bool :=
  (x =? 127)%Z || (x =? 10)%Z || ((x =? 172)%Z && (16 <=? y)%Z && (y <=? 31)%Z)
  || ((x =? 192)%Z && (y =? 168)%Z).

(** What a prefix test on a text that starts with [s] gives, when the part
    [s] already decides it. *)
Fixpoint decided_prefix (p s : string) : option bool :=
  match p, s with
  | EmptyString, _ => Some true
  | String _ _, EmptyString => None
  | String a p', String b s' =>
      if Ascii.eqb a b then decided_prefix p' s' else Some false
  end.

Fixpoint decided_startswith (s : string) (prefixes : list string) : option bool :=
  match prefixes with
  | [] => Some false
  | p :: rest =>
      match decided_prefix p s, decided_startswith s rest with
      | Some b, Some c => Some (b || c)
      | _, _ => None
      end
  end.

Definition octet_values : list Z := map Z.of_nat (seq 0 256).

Definition octets_agree (x y : Z) : bool :=
  match decided_startswith (str_of_int x +:+ "." +:+ str_of_int y +:+ ".")
                           local_prefixes with
  | Some b => Bool.eqb b (local_octets x y)
  | None => false
  end.

(** A scripted world: fixed answers of the facilities.  Its state is a
    record of the connections made: the descriptors
    [socket_create_connection] has handed out, less those an explicit
    [socket_close] has closed.  What the runtime finalises on its own is
    not modelled. *)
Record script : Type :=
  { clock : spec_float;
    connect : outcome socket;
    resolve : option string -> outcome ipv4;
    system : outcome string;
    ping : list (option string) -> outcome CompletedProcess;
    http : string -> string -> outcome Response }.

Definition scripted (s : script) : world :=
  {| world_state := list socket;
     respond := fun c =>
       match c return list socket -> answer c * list socket with
       | time_time => fun made => (clock s, made)
       | socket_create_connection _ _ => fun made =>
           match connect s with
           | Ret fd => (Ret fd, fd :: made)
           | Raise e => (Raise e, made)
           end
       | socket_close fd => fun made =>
           (Ret tt, filter (fun fd' => negb (Nat.eqb fd fd')) made)
       | socket_gethostbyname h => fun made => (resolve s h, made)
       | platform_system => fun made => (system s, made)
       | subprocess_run args _ => fun made => (ping s args, made)
       | requests_request method url _ _ => fun made => (http s method url, made)
       end |}.

(** ** Scenarios *)

(** The host names of the two base addresses used below, as [urlparse]
    gives them. *)
Definition example_urlparse (url : string) : parsed_host :=
  if String.eqb url "http://localhost:11434" then Hostname (Some "localhost")
  else if String.eqb url "http://ollama.example.com:11434"
       then Hostname (Some "ollama.example.com")
       else Hostname None.

Definition local_probe : OllamaTester :=
  {| base_url := "http://localhost:11434"; timeout := 30; is_remote := false |}.

Definition remote_probe : OllamaTester :=
  {| base_url := "http://ollama.example.com:11434"; timeout := 30;
     is_remote := true |}.

Definition tags_response (body : pyobj) : Response :=
  {| status_code := 200; json := Ret body |}.

(** The body [{"models": [{"name": "llama2"}]}]. *)
Definition llama2_body : pyobj :=
  PyDict [("models", PyList [PyDict [("name", PyStr "llama2")]])].

(** Everything works: the network is up, the host answers the ping, the
    server lists llama2. *)
Definition healthy : script :=
  {| clock := S754_zero false;
     connect := Ret 3%nat;
     resolve := fun _ => Ret (x5d, xb8, xd8, x22);
     system := Ret "Linux";
     ping := fun _ => Ret {| returncode := 0; stdout := ""; stderr := "" |};
     http := fun _ _ => Ret (tags_response llama2_body) |}.

Definition with_http (s : script) (h : string -> string -> outcome Response)
  : script :=
  {| clock := clock s; connect := connect s; resolve := resolve s;
     system := system s; ping := ping s; http := h |}.

(** No route to the public internet. *)
Definition offline : script :=
  {| clock := clock healthy;
     connect := Raise (Exn OSError "[Errno 101] Network is unreachable");
     resolve := resolve healthy; system := system healthy;
     ping := ping healthy; http := http healthy |}.

(** The host does not answer the ping. *)
Definition unreachable : script :=
  {| clock := clock healthy; connect := connect healthy;
     resolve := resolve healthy; system := system healthy;
     ping := fun _ => Ret {| returncode := 1; stdout := "";
                             stderr := "ping: unknown host" |};
     http := http healthy |}.

(** Nothing listens on the port. *)
Definition server_down : script :=
  with_http healthy
    (fun _ _ => Raise (Exn ConnectionError "Connection refused")).

(** The server runs and has no model. *)
Definition no_models : script :=
  with_http healthy
    (fun _ _ => Ret (tags_response (PyDict [("models", PyList [])]))).

(** The server answers [{}]. *)
Definition no_models_field : script :=
  with_http healthy (fun _ _ => Ret (tags_response (PyDict []))).

(** The server answers [{"models": [1, {"name": "llama2"}]}]. *)
Definition stray_entry_body : pyobj :=
  PyDict [("models", PyList [PyInt 1; PyDict [("name", PyStr "llama2")]])].

Definition stray_entry : script :=
  with_http healthy (fun _ _ => Ret (tags_response stray_entry_body)).

(** The server answers every request with status 418. *)
Definition teapot : script :=
  with_http healthy
    (fun _ _ => Ret {| status_code := 418; json := Ret PyNone |}).

(** The resolver finds the host at 10.0.0.5. *)
Definition on_lan : script :=
  {| clock := clock healthy; connect := connect healthy;
     resolve := fun _ => Ret (x0a, x00, x00, x05);
     system := system healthy; ping := ping healthy; http := http healthy |}.

(** Scripts for the further properties. *)

Definition with_process (s : script) (sys : outcome string)
    (p : list (option string) -> outcome CompletedProcess) : script :=
  {| clock := clock s; connect := connect s; resolve := resolve s;
     system := sys; ping := p; http := http s |}.

(** A Windows host. *)
Definition on_windows : script :=
  with_process healthy (Ret "Windows") (ping healthy).

(** The ping does not finish within the timeout. *)
Definition ping_times_out : script :=
  with_process healthy (Ret "Linux")
    (fun _ => Raise (Exn TimeoutExpired "Command 'ping' timed out after 30 seconds")).

(** The server answers [{"models": null}]. *)
Definition null_models : script :=
  with_http healthy
    (fun _ _ => Ret (tags_response (PyDict [("models", PyNone)]))).

(** A resolver that rejects a missing host name. *)
Definition resolver_rejects : script :=
  {| clock := clock healthy; connect := connect healthy;
     resolve := fun h =>
       match h with
       | Some _ => resolve healthy h
       | None => Raise (Exn TypeError "gethostbyname() argument 1 must be str")
       end;
     system := system healthy; ping := ping healthy; http := http healthy |}.

(** [example_urlparse], with one URL that [urlparse] refuses. *)
Definition strict_urlparse (url : string) : parsed_host :=
  if String.eqb url "http://[::1" then InvalidURL "Invalid IPv6 URL"
  else example_urlparse url.

(** ** Running programs *)

Section Running.

Variable E : world.

Lemma run_bind {A B : Type} (m : prog A) (f : A -> prog B) (w : world_state E) :
  run E (bind m f) w =
  match run E m w with
  | (Ret a, w') => run E (f a) w'
  | (Raise e, w') => (Raise e, w')
  end.
Proof.
  revert w. induction m as [a | e | c k IH]; intros w; cbn; try reflexivity.
  destruct (respond E c w) as [x w']. apply IH.
Qed.

Lemma run_try_except {A : Type} (body : prog A) clauses (w : world_state E) :
  run E (try_except body clauses) w =
  match run E body w with
  | (Ret a, w') => (Ret a, w')
  | (Raise e, w') =>
      match clauses e with
      | Some handler => run E handler w'
      | None => (Raise e, w')
      end
  end.
Proof.
  revert w. induction body as [a | e | c k IH]; intros w; cbn.
  - reflexivity.
  - destruct (clauses e); reflexivity.
  - destruct (respond E c w) as [x w']. apply IH.
Qed.

Lemma run_try_rebinding {S A : Type} (old : S) (rebind : prog S)
    (rest : S -> prog A) clauses (w : world_state E) :
  run E (try_rebinding old rebind rest clauses) w =
  match run E rebind w with
  | (Ret s, w') => run E (try_except (rest s) (clauses s)) w'
  | (Raise e, w') =>
      match clauses old e with
      | Some handler => run E handler w'
      | None => (Raise e, w')
      end
  end.
Proof.
  unfold try_rebinding. rewrite run_bind, run_try_except, run_bind.
  destruct (run E rebind w) as [[s | e] w']; cbn; [reflexivity |].
  destruct (clauses old e) as [handler |]; cbn; [| reflexivity].
  rewrite run_bind. destruct (run E handler w') as [[a | e'] w'']; reflexivity.
Qed.

Lemma calls_bind {A B : Type} (m : prog A) (f : A -> prog B) (w : world_state E) :
  calls E (bind m f) w =
  (calls E m w ++
   match run E m w with
   | (Ret a, w') => calls E (f a) w'
   | (Raise _, _) => []
   end)%list.
Proof.
  revert w. induction m as [a | e | c k IH]; intros w; cbn; try reflexivity.
  destruct (respond E c w) as [x w']. rewrite IH. reflexivity.
Qed.

Lemma faults_bind {A B : Type} (m : prog A) (f : A -> prog B) (w : world_state E) :
  faults E (bind m f) w =
  (faults E m w ++
   match run E m w with
   | (Ret a, w') => faults E (f a) w'
   | (Raise _, _) => []
   end)%list.
Proof.
  revert w. induction m as [a | e | c k IH]; intros w; cbn; try reflexivity.
  destruct (respond E c w) as [x w']. rewrite IH. apply app_assoc.
Qed.

Lemma faults_try_except {A : Type} (body : prog A) clauses (w : world_state E) :
  faults E (try_except body clauses) w =
  (faults E body w ++
   match run E body w with
   | (Ret _, _) => []
   | (Raise e, w') =>
       match clauses e with
       | Some handler => faults E handler w'
       | None => []
       end
   end)%list.
Proof.
  revert w. induction body as [a | e | c k IH]; intros w; cbn.
  - reflexivity.
  - destruct (clauses e); reflexivity.
  - destruct (respond E c w) as [x w']. rewrite IH. apply app_assoc.
Qed.

Lemma faults_try_rebinding {S A : Type} (old : S) (rebind : prog S)
    (rest : S -> prog A) clauses (w : world_state E) :
  faults E (try_rebinding old rebind rest clauses) w =
  (faults E rebind w ++
   match run E rebind w with
   | (Ret s, w') => faults E (try_except (rest s) (clauses s)) w'
   | (Raise e, w') =>
       match clauses old e with
       | Some handler => faults E handler w'
       | None => []
       end
   end)%list.
Proof.
  unfold try_rebinding.
  rewrite faults_bind, faults_try_except, faults_bind, run_try_except, run_bind.
  destruct (run E rebind w) as [[s | e] w']; cbn.
  - rewrite !app_nil_r. reflexivity.
  - rewrite app_nil_r, <- app_assoc. f_equal.
    destruct (clauses old e) as [handler |]; cbn; [| reflexivity].
    rewrite faults_bind, run_bind.
    destruct (run E handler w') as [[a | e'] w'']; cbn; rewrite !app_nil_r; reflexivity.
Qed.

End Running.

Lemma returned_inj {A W : Type} (a b : A) (w w' : W) :
  (Ret a, w) = (Ret b, w') -> a = b /\ w = w'.
Proof. intros H. injection H as -> ->. split; reflexivity. Qed.

(** ** Exception classes *)

Lemma subclass_of_Exception (e : exn) (c : exn_class) :
  In c [OSError; SubprocessError; RequestException; TimeoutExpired; Timeout] ->
  isinstance e c = true -> isinstance e Exception = true.
Proof.
  unfold isinstance. intros Hc.
  destruct (exn_type e); cbn in Hc;
    repeat (destruct Hc as [<- | Hc]; [vm_compute; congruence |]);
    contradiction.
Qed.

Lemma subclass_of_Timeout (e : exn) :
  isinstance e Timeout = true -> isinstance e RequestException = true.
Proof. unfold isinstance. destruct (exn_type e); vm_compute; congruence. Qed.

Lemma process_exception_ordinary (e : exn) :
  process_exception e = true -> isinstance e Exception = true.
Proof.
  unfold process_exception. intros [H | H]%orb_true_iff.
  - apply (subclass_of_Exception e OSError); [cbn; tauto | exact H].
  - apply (subclass_of_Exception e SubprocessError); [cbn; tauto | exact H].
Qed.

(** ** Addresses *)

Lemma octet_range (b : byte) : 0 <= octet b < 256.
Proof. unfold octet. pose proof (Byte.to_N_bounded b). lia. Qed.

Lemma in_private_range_octets (o1 o2 o3 o4 : byte) :
  in_private_range (o1, o2, o3, o4) = local_octets (octet o1) (octet o2).
Proof.
  pose proof (octet_range o1). pose proof (octet_range o2).
  pose proof (octet_range o3). pose proof (octet_range o4).
  unfold in_private_range, private_networks, in_network, local_octets.
  cbn [existsb]. unfold ipv4_to_Z.
  change (octet "127") with 127. change (octet "010") with 10.
  change (octet "172") with 172. change (octet "016") with 16.
  change (octet "192") with 192. change (octet "168") with 168.
  change (octet "000") with 0.
  rewrite !Z.shiftr_div_pow2, !Z.shiftl_mul_pow2 by lia.
  change (32 - 8) with 24. change (32 - 12) with 20. change (32 - 16) with 16.
  change (2 ^ 24) with 16777216. change (2 ^ 20) with 1048576.
  change (2 ^ 16) with 65536. change (2 ^ 8) with 256.
  apply Bool.eq_iff_eq_true.
  rewrite !orb_true_iff, !andb_true_iff, !Z.eqb_eq, !Z.leb_le.
  Z.div_mod_to_equations. lia.
Qed.

Lemma decided_prefix_app (p s r : string) (b : bool) :
  decided_prefix p s = Some b -> String.prefix p (s +:+ r) = b.
Proof.
  revert s. induction p as [| a p IH]; intros s; cbn.
  - intros [= <-]. destruct (s +:+ r); reflexivity.
  - destruct s as [| c s]; [discriminate |]. simpl.
    destruct (Ascii.eqb_spec a c) as [-> | Hne].
    + intros H. destruct (ascii_dec c c) as [_ | []]; [apply IH, H | reflexivity].
    + intros [= <-]. destruct (ascii_dec a c) as [-> | _]; [contradiction | reflexivity].
Qed.

Lemma decided_startswith_app (s r : string) (prefixes : list string) (b : bool) :
  decided_startswith s prefixes = Some b -> startswith (s +:+ r) prefixes = b.
Proof.
  revert b. induction prefixes as [| p rest IH]; intros b; cbn.
  - intros [= <-]. reflexivity.
  - destruct (decided_prefix p s) as [b1 |] eqn:Hp; [| discriminate].
    destruct (decided_startswith s rest) as [b2 |]; [| discriminate].
    intros [= <-]. unfold startswith in *. cbn [existsb].
    rewrite (decided_prefix_app p s r b1 Hp), (IH b2 eq_refl).
    reflexivity.
Qed.

Lemma all_octets_agree :
  forallb (fun x => forallb (octets_agree x) octet_values) octet_values = true.
Proof. vm_compute. reflexivity. Qed.

Lemma octet_values_complete (x : Z) : 0 <= x < 256 -> In x octet_values.
Proof.
  intros Hx. unfold octet_values. apply in_map_iff. exists (Z.to_nat x).
  split; [lia |]. apply in_seq. lia.
Qed.

Lemma append_assoc (a b c : string) : (a +:+ b) +:+ c = a +:+ b +:+ c.
Proof.
  induction a as [| x a IH]; [reflexivity |].
  change (String x ((a +:+ b) +:+ c) = String x (a +:+ b +:+ c)).
  rewrite IH. reflexivity.
Qed.

Lemma startswith_local_prefixes (o1 o2 o3 o4 : byte) :
  startswith (inet_ntoa (o1, o2, o3, o4)) local_prefixes
  = local_octets (octet o1) (octet o2).
Proof.
  pose proof all_octets_agree as Hall.
  rewrite forallb_forall in Hall.
  specialize (Hall _ (octet_values_complete _ (octet_range o1))).
  rewrite forallb_forall in Hall.
  specialize (Hall _ (octet_values_complete _ (octet_range o2))).
  unfold octets_agree in Hall.
  destruct (decided_startswith _ local_prefixes) as [b |] eqn:Hd; [| discriminate].
  apply Bool.eqb_prop in Hall. subst b.
  unfold inet_ntoa.
  replace (str_of_int (octet o1) +:+ "." +:+ str_of_int (octet o2) +:+ "."
             +:+ str_of_int (octet o3) +:+ "." +:+ str_of_int (octet o4))
    with ((str_of_int (octet o1) +:+ "." +:+ str_of_int (octet o2) +:+ ".")
            +:+ (str_of_int (octet o3) +:+ "." +:+ str_of_int (octet o4)))
    by (rewrite !append_assoc; reflexivity).
  apply decided_startswith_app, Hd.
Qed.

(** The prefix test on the printed address is the membership test in the
    private networks. *)
Lemma startswith_private (a : ipv4) :
  startswith (inet_ntoa a) local_prefixes = in_private_range a.
Proof.
  destruct a as [[[o1 o2] o3] o4].
  rewrite in_private_range_octets. apply startswith_local_prefixes.
Qed.

(** ** Properties of the probe *)

Ltac codes :=
  repeat match goal with
    | |- context [Z.eqb ?x ?y] => destruct (Z.eqb_spec x y); try lia
    | |- context [Z.geb ?x ?y] =>
        rewrite (Z.geb_leb x y); destruct (Z.leb_spec y x); try lia
    end;
  try reflexivity.

(** One gate of [test_connection]: the check [m] runs next; the goal is left
    for the case where it passed, the other two cases end the run. *)
Ltac gate_on m :=
  rewrite run_bind;
  match goal with
  | |- context [run ?E m ?w] =>
      destruct (run E m w) as [[[[|] ?] | ?] ?]; cbn [negb run];
      [| intros [= <- _]; cbn; tauto | discriminate]
  end.

Section ProbeProperties.

Variable urlparse_hostname : string -> parsed_host.
Variable E : world.

(** *** Locality *)

Lemma run_is_local_url (url : string) (w : world_state E) :
  run E (_is_local_url urlparse_hostname url) w =
  match urlparse_hostname url with
  | InvalidURL text => (Raise (Exn ValueError text), w)
  | Hostname h =>
      if among h ["localhost"; "127.0.0.1"] then (Ret true, w)
      else
        let (a, w') := respond E (socket_gethostbyname h) w in
        match a with
        | Ret address => (Ret (in_private_range address), w')
        | Raise e =>
            if isinstance e gaierror then (Ret false, w') else (Raise e, w')
        end
  end.
Proof.
  unfold _is_local_url. rewrite run_bind.
  destruct (urlparse_hostname url) as [h | text]; cbn [hostname_of run]; [| reflexivity].
  destruct (among h _); [reflexivity |].
  rewrite run_try_except. unfold gethostbyname. cbn [invoke run bind].
  destruct (respond E (socket_gethostbyname h) w) as [[address | e] w'];
    cbn [lift run bind except].
  - rewrite startswith_private. reflexivity.
  - destruct (isinstance e gaierror); reflexivity.
Qed.

(** C4. With [h] the host name of the base address: the probe is local when
    [h] is one of the loopback literals, without asking the resolver;
    otherwise it is local exactly when the resolver returns an address in
    127.0.0.0/8, 10.0.0.0/8, 172.16.0.0/12 or 192.168.0.0/16; and it is
    remote when the resolution fails. *)
Theorem locality_flag (url : string) (t : Z) (w : world_state E)
    (h : option string) :
  urlparse_hostname url = Hostname h ->
  (among h ["localhost"; "127.0.0.1"] = true ->
   exists self,
     run E (__init__ urlparse_hostname url t) w = (Ret self, w)
     /\ is_local self = true)
  /\ (among h ["localhost"; "127.0.0.1"] = false ->
      forall a w',
        respond E (socket_gethostbyname h) w = (Ret a, w') ->
        exists self,
          run E (__init__ urlparse_hostname url t) w = (Ret self, w')
          /\ is_local self = in_private_range a)
  /\ (among h ["localhost"; "127.0.0.1"] = false ->
      forall e w',
        respond E (socket_gethostbyname h) w = (Raise e, w') ->
        isinstance e gaierror = true ->
        exists self,
          run E (__init__ urlparse_hostname url t) w = (Ret self, w')
          /\ is_local self = false)
  /\ (forall self w',
        run E (__init__ urlparse_hostname url t) w = (Ret self, w') ->
        (is_local self = true <->
         among h ["localhost"; "127.0.0.1"] = true
         \/ exists a w1,
             respond E (socket_gethostbyname h) w = (Ret a, w1)
             /\ in_private_range a = true)).
Proof.
  intros Hhost. unfold __init__, is_local.
  rewrite run_bind, run_is_local_url, Hhost.
  split; [| split; [| split]].
  - intros ->. eexists. split; reflexivity.
  - intros -> a w' ->. eexists. split; [reflexivity |].
    cbn [is_remote]. apply negb_involutive.
  - intros -> e w' -> ->. eexists. split; reflexivity.
  - intros self w'. destruct (among h _).
    { cbn [run]. intros [<- _]%returned_inj. cbn [is_remote negb]. tauto. }
    destruct (respond E (socket_gethostbyname h) w) as [[a | e] w1].
    + cbn [run]. intros [<- _]%returned_inj. cbn [is_remote].
      rewrite negb_involutive. split.
      * intros Hin. right. eexists _, _. split; [reflexivity | exact Hin].
      * intros [Hlit | (a' & w1' & [<- _]%returned_inj & Hin)];
          [discriminate | exact Hin].
    + destruct (isinstance e gaierror); [| discriminate].
      cbn [run]. intros [<- _]%returned_inj. cbn [is_remote negb].
      split; [discriminate |].
      intros [Hlit | (a' & w1' & Hdns & _)]; discriminate.
Qed.

(** *** The ping-based checks *)

(** The handlers of [ping_host] turn every ordinary exception into a
    failed ping. *)
Lemma ping_clauses_ordinary (host : option string) (e : exn) :
  isinstance e Exception = true ->
  exists msg, ping_clauses host e = Some (Return (false, msg)).
Proof.
  intros Hexn. unfold ping_clauses. cbn [except].
  destruct (isinstance e TimeoutExpired); [eexists; reflexivity |].
  rewrite Hexn. eexists; reflexivity.
Qed.

Lemma ping_clauses_silent (host : option string) (e : exn) (w : world_state E) :
  match ping_clauses host e with
  | Some handler => faults E handler w
  | None => []
  end = [].
Proof.
  unfold ping_clauses. cbn [except].
  destruct (isinstance e TimeoutExpired); [reflexivity |].
  destruct (isinstance e Exception); reflexivity.
Qed.

(** No ordinary exception escapes [ping_host]. *)
Lemma ping_host_catches (self : OllamaTester) (host : option string) (count : Z)
    (w w' : world_state E) (e : exn) :
  run E (ping_host urlparse_hostname self host count) w = (Raise e, w') ->
  isinstance e Exception = false.
Proof.
  unfold ping_host. rewrite run_try_rebinding.
  assert (Hclauses : forall h (w1 : world_state E) e1,
             match ping_clauses h e1 with
             | Some handler => run E handler w1
             | None => (Raise e1, w1)
             end = (Raise e, w') -> isinstance e Exception = false).
  { intros h w1 e1. unfold ping_clauses. cbn [except].
    destruct (isinstance e1 TimeoutExpired); [discriminate |].
    destruct (isinstance e1 Exception) eqn:Hexn; [discriminate |].
    intros [= <- _]. exact Hexn. }
  destruct (run E _ w) as [[h | e1] w1] eqn:Hrebind.
  - rewrite run_try_except. cbn [invoke run bind].
    destruct (respond E platform_system w1) as [[sys | e1] w2]; cbn [lift run bind].
    2: { apply Hclauses. }
    destruct (respond E (subprocess_run _ _) w2) as [[result | e1] w3];
      cbn [lift run bind].
    2: { apply Hclauses. }
    destruct (returncode result =? 0)%Z; discriminate.
  - apply Hclauses.
Qed.

Lemma ping_host_converts (self : OllamaTester) (host : option string) (count : Z)
    (w : world_state E) (e : exn) :
  In e (faults E (ping_host urlparse_hostname self host count) w) ->
  isinstance e Exception = true ->
  exists msg w',
    run E (ping_host urlparse_hostname self host count) w = (Ret (false, msg), w').
Proof.
  unfold ping_host. rewrite run_try_rebinding, faults_try_rebinding.
  set (rebind := match host with Some _ => _ | None => _ end).
  assert (Hpure : exists o, forall w0 : world_state E,
             run E rebind w0 = (o, w0) /\ faults E rebind w0 = []).
  { subst rebind. destruct host as [h |]; [| eexists; split; reflexivity].
    destruct (startswith h _); [| eexists; split; reflexivity].
    destruct (urlparse_hostname h); eexists; split; reflexivity. }
  destruct Hpure as (o & Hpure). destruct (Hpure w) as [-> ->]. cbn [app].
  destruct o as [h | e0]; [| rewrite ping_clauses_silent; contradiction].
  rewrite run_try_except, faults_try_except. cbn [invoke run faults bind].
  destruct (respond E platform_system w) as [[sys | e1] w1];
    cbn [lift run faults bind fault app].
  2: { rewrite ping_clauses_silent. intros [-> | []] Hexn.
       destruct (ping_clauses_ordinary h e Hexn) as (msg & ->).
       eexists _, _. reflexivity. }
  destruct (respond E (subprocess_run _ _) w1) as [[result | e1] w2];
    cbn [lift run faults bind fault app].
  - destruct (returncode result =? 0)%Z; contradiction.
  - rewrite ping_clauses_silent. intros [-> | []] Hexn.
    destruct (ping_clauses_ordinary h e Hexn) as (msg & ->).
    eexists _, _. reflexivity.
Qed.

Lemma check_remote_server_local (self : OllamaTester) (w : world_state E) :
  is_remote self = false ->
  run E (check_remote_server urlparse_hostname self) w
  = (Ret (true, "Local server, no ping test needed"), w).
Proof. intros H. unfold check_remote_server. rewrite H. reflexivity. Qed.

Lemma check_remote_server_ping (self : OllamaTester) (w w' : world_state E)
    (host : option string) (reached : bool) (ping_message : string) :
  is_remote self = true ->
  urlparse_hostname (base_url self) = Hostname host ->
  run E (ping_host urlparse_hostname self host 4) w
  = (Ret (reached, ping_message), w') ->
  run E (check_remote_server urlparse_hostname self) w
  = (Ret (if reached then (true, "Remote server is reachable")
          else (false, "Remote server ping failed: " +:+ ping_message)), w').
Proof.
  intros Hremote Hhost Hping. unfold check_remote_server.
  rewrite Hremote, Hhost. cbn [negb hostname_of bind].
  rewrite run_bind, Hping. destruct reached; reflexivity.
Qed.

Lemma check_remote_server_catches (self : OllamaTester)
    (w w' : world_state E) (e : exn) :
  run E (check_remote_server urlparse_hostname self) w = (Raise e, w') ->
  process_exception e = false.
Proof.
  unfold check_remote_server.
  destruct (is_remote self); cbn [negb]; [| discriminate].
  rewrite run_bind.
  destruct (urlparse_hostname (base_url self)) as [host | text]; cbn [hostname_of run].
  2: { intros [= <- _]. reflexivity. }
  rewrite run_bind.
  destruct (run E (ping_host urlparse_hostname self host 4) w) as [[[[|] msg] | e1] w1] eqn:Hping;
    cbn [negb run]; try discriminate.
  intros [= <- _]. apply ping_host_catches in Hping.
  unfold process_exception.
  destruct (isinstance e1 OSError) eqn:H1.
  { rewrite (subclass_of_Exception e1 OSError) in Hping; [discriminate | cbn; tauto | exact H1]. }
  destruct (isinstance e1 SubprocessError) eqn:H2; [| reflexivity].
  rewrite (subclass_of_Exception e1 SubprocessError) in Hping; [discriminate | cbn; tauto | exact H2].
Qed.

Lemma check_remote_server_converts (self : OllamaTester)
    (w : world_state E) (e : exn) :
  In e (faults E (check_remote_server urlparse_hostname self) w) ->
  isinstance e Exception = true ->
  exists msg w',
    run E (check_remote_server urlparse_hostname self) w = (Ret (false, msg), w').
Proof.
  unfold check_remote_server.
  destruct (is_remote self); cbn [negb]; [| contradiction].
  rewrite run_bind, faults_bind.
  destruct (urlparse_hostname (base_url self)) as [host | text];
    cbn [hostname_of run faults app]; [| contradiction].
  rewrite run_bind, faults_bind. intros Hin Hexn.
  assert (Hin' : In e (faults E (ping_host urlparse_hostname self host 4) w)).
  { apply in_app_or in Hin as [Hin | Hin]; [exact Hin |].
    destruct (run E (ping_host urlparse_hostname self host 4) w) as [[[[|] msg] | e1] w1];
      contradiction. }
  destruct (ping_host_converts self host 4 w e Hin' Hexn) as (msg & w' & ->).
  eexists _, _. reflexivity.
Qed.

(** *** The HTTP-based checks *)

Lemma run_check_server_availability (self : OllamaTester) (w : world_state E) :
  run E (check_server_availability self) w =
  let (a, w') := respond E (tags_request self) w in
  match a with
  | Ret response =>
      (Ret (if (status_code response =? 200)%Z
            then (true, "Server is available and responding")
            else (false, "Server returned status code: "
                           +:+ str_of_int (status_code response))), w')
  | Raise e =>
      if isinstance e RequestException
      then (Ret (false, "Server is not reachable: " +:+ exn_str e), w')
      else (Raise e, w')
  end.
Proof.
  unfold check_server_availability, requests_get, tags_request.
  rewrite run_try_except. cbn [invoke run bind].
  destruct (respond E _ w) as [[response | e] w']; cbn.
  - destruct (status_code response =? 200)%Z; reflexivity.
  - destruct (isinstance e RequestException); reflexivity.
Qed.

Lemma faults_check_server_availability (self : OllamaTester) (w : world_state E) :
  faults E (check_server_availability self) w =
  let (a, _) := respond E (tags_request self) w in fault (tags_request self) a.
Proof.
  unfold check_server_availability, requests_get, tags_request.
  rewrite faults_try_except. cbn [invoke run faults bind].
  destruct (respond E _ w) as [[response | e] w']; cbn.
  - destruct (status_code response =? 200)%Z; reflexivity.
  - destruct (isinstance e RequestException); reflexivity.
Qed.

Lemma run_find_model_dicts (name : string) (entries : list pyobj) (w : world_state E) :
  forallb is_dict entries = true ->
  run E (find_model name entries) w =
  (Ret (if existsb (entry_named name) entries
        then (true, "Model " +:+ name +:+ " is available")
        else (false, "Model " +:+ name +:+ " is not loaded")), w).
Proof.
  induction entries as [| entry rest IH]; cbn [forallb existsb find_model]; intros Hall.
  - reflexivity.
  - apply andb_true_iff in Hall as [Hentry Hrest].
    destruct entry as [| | | | | | fields]; try discriminate.
    cbn [get lift bind entry_named].
    destruct (dict_lookup fields "name") as [[| | | | s | |] |]; cbn [eq_str orb];
      try (apply IH; assumption).
    destruct (String.eqb s name); cbn [orb]; [reflexivity | apply IH; assumption].
Qed.

Lemma run_find_model_outcomes (name : string) (entries : list pyobj)
    (w : world_state E) :
  exists o,
    run E (find_model name entries) w = (o, w)
    /\ match o with
       | Ret (found, _) => found = true -> existsb (entry_named name) entries = true
       | Raise e => exn_type e = AttributeError
       end.
Proof.
  induction entries as [| entry rest IH]; cbn [existsb find_model].
  - eexists. split; [reflexivity | cbn; discriminate].
  - destruct entry as [| | | | | | fields];
      try (eexists; split; [reflexivity | reflexivity]).
    cbn [get lift bind existsb entry_named].
    destruct IH as (o & Hrun & Ho).
    destruct (dict_lookup fields "name") as [[| | | | s | |] |]; cbn [eq_str orb];
      try (exists o; split; [exact Hrun | exact Ho]).
    destruct (String.eqb s name); cbn [orb].
    + eexists. split; [reflexivity | intros _; reflexivity].
    + exists o. split; [exact Hrun | exact Ho].
Qed.

Lemma no_entry_among_keys (name : string) (kvs : list (string * pyobj)) :
  existsb (entry_named name) (map (fun kv => PyStr (fst kv)) kvs) = false.
Proof. induction kvs as [| kv rest IH]; [reflexivity | exact IH]. Qed.

Lemma no_entry_among_chars (name s : string) :
  existsb (entry_named name) (chars s) = false.
Proof. induction s as [| a rest IH]; [reflexivity | exact IH]. Qed.

Lemma run_check_model_status (self : OllamaTester) (name : string)
    (w : world_state E) :
  run E (check_model_status self name) w =
  let (a, w') := respond E (tags_request self) w in
  match a with
  | Ret response =>
      if (status_code response =? 200)%Z
      then
        match json response with
        | Ret body =>
            match get body "models" (PyList []) with
            | Ret models =>
                match iter models with
                | Ret entries => run E (find_model name entries) w'
                | Raise e => (Raise e, w')
                end
            | Raise e => (Raise e, w')
            end
        | Raise e =>
            if isinstance e RequestException
            then (Ret (false, "Error checking model status: " +:+ exn_str e), w')
            else (Raise e, w')
        end
      else (Ret (false, "Failed to check model status: "
                          +:+ str_of_int (status_code response)), w')
  | Raise e =>
      if isinstance e RequestException
      then (Ret (false, "Error checking model status: " +:+ exn_str e), w')
      else (Raise e, w')
  end.
Proof.
  unfold check_model_status, requests_get, tags_request.
  rewrite run_try_except. cbn [invoke run bind].
  destruct (respond E _ w) as [[response | e] w']; cbn [lift run bind except].
  2: { destruct (isinstance e RequestException); reflexivity. }
  destruct (status_code response =? 200)%Z; [| reflexivity].
  destruct (json response) as [body | e]; cbn [lift run bind].
  2: { destruct (isinstance e RequestException); reflexivity. }
  destruct body as [| | | | | | items]; try reflexivity.
  cbn [get lift run bind].
  destruct (match dict_lookup items "models" with Some v => v | None => PyList [] end)
    as [| | | | s | xs | kvs]; try reflexivity; cbn [iter lift run bind].
  all: match goal with
       | |- context [find_model ?n ?l] =>
           destruct (run_find_model_outcomes n l w') as (o & -> & Ho)
       end.
  all: destruct o as [[found msg] | e]; [reflexivity |].
  all: unfold isinstance; rewrite Ho; reflexivity.
Qed.

Lemma faults_check_model_status (self : OllamaTester) (name : string)
    (w : world_state E) :
  faults E (check_model_status self name) w =
  let (a, _) := respond E (tags_request self) w in fault (tags_request self) a.
Proof.
  assert (Hsilent : forall entries (w0 : world_state E),
             faults E (find_model name entries) w0 = []).
  { induction entries as [| entry rest IH]; intros w0; [reflexivity |].
    cbn [find_model]. rewrite faults_bind.
    destruct (get entry "name" PyNone) as [v | e]; cbn; [| reflexivity].
    destruct (eq_str v name); [reflexivity | apply IH]. }
  unfold check_model_status, requests_get, tags_request.
  rewrite faults_try_except. cbn [invoke run faults bind].
  destruct (respond E _ w) as [[response | e] w']; cbn [lift run faults bind fault app except].
  2: { destruct (isinstance e RequestException); reflexivity. }
  destruct (status_code response =? 200)%Z; [| reflexivity].
  destruct (json response) as [body | e]; cbn [lift run faults bind app].
  2: { destruct (isinstance e RequestException); reflexivity. }
  destruct (get body "models" (PyList [])) as [models | e];
    cbn [lift run faults bind app].
  2: { destruct (isinstance e RequestException); reflexivity. }
  destruct (iter models) as [entries | e]; cbn [lift run faults bind app].
  2: { destruct (isinstance e RequestException); reflexivity. }
  rewrite Hsilent. cbn [app].
  destruct (run_find_model_outcomes name entries w') as (o & -> & Ho).
  destruct o as [r | e]; [reflexivity |].
  destruct (isinstance e RequestException); reflexivity.
Qed.

Lemma check_model_status_catches (self : OllamaTester) (name : string)
    (w w' : world_state E) (e : exn) :
  run E (check_model_status self name) w = (Raise e, w') ->
  network_exception e = false.
Proof.
  rewrite run_check_model_status. unfold network_exception.
  destruct (respond E (tags_request self) w) as [[response | e1] w1].
  2: { destruct (isinstance e1 RequestException) eqn:H; [discriminate |].
       intros [= <- _]. exact H. }
  destruct (status_code response =? 200)%Z; [| discriminate].
  destruct (json response) as [body | e1].
  2: { destruct (isinstance e1 RequestException) eqn:H; [discriminate |].
       intros [= <- _]. exact H. }
  destruct (get body "models" (PyList [])) as [models | e1] eqn:Hget.
  2: { intros [= <- _]. destruct body; try discriminate; injection Hget as <-; reflexivity. }
  destruct (iter models) as [entries | e1] eqn:Hiter.
  2: { intros [= <- _]. destruct models; try discriminate; injection Hiter as <-; reflexivity. }
  destruct (run_find_model_outcomes name entries w1) as (o & -> & Ho).
  intros [= -> _]. unfold isinstance. rewrite Ho. reflexivity.
Qed.

(** On an answer within the client's contract (a 200 body that is an object
    whose models, if present, is an array of objects; failures raised as
    [RequestException]) [check_model_status] returns [true] exactly when the
    models array has an entry named as queried, and [false] otherwise. *)
Lemma check_model_status_on_expected_shape (self : OllamaTester) (name : string)
    (w w' : world_state E) (a : outcome Response) :
  respond E (tags_request self) w = (a, w') ->
  (forall msg w'',
      run E (check_model_status self name) w = (Ret (true, msg), w'') ->
      tags_list_model a name = true)
  /\ (expected_tags_answer a = true ->
      exists msg,
        run E (check_model_status self name) w
        = (Ret (tags_list_model a name, msg), w')).
Proof.
  intros Hreq. rewrite run_check_model_status, Hreq.
  unfold tags_list_model, expected_tags_answer, network_exception.
  destruct a as [response | e].
  2: { split; [destruct (isinstance e RequestException); discriminate |].
       intros ->. eexists. reflexivity. }
  destruct (status_code response =? 200)%Z; cbn [andb].
  2: { split; [discriminate | intros _; eexists; reflexivity]. }
  destruct (json response) as [body | e].
  2: { split; [destruct (isinstance e RequestException); discriminate |].
       intros ->. eexists. reflexivity. }
  destruct body as [| | | | | | items]; try (split; discriminate).
  cbn [get lists_model expected_tags_body].
  destruct (dict_lookup items "models") as [[| | | | s | entries | kvs] |];
    try (split; discriminate); cbn [iter].
  - split; [| discriminate]. intros msg w'' Hrun.
    destruct (run_find_model_outcomes name (chars s) w') as (o & Ho & Hfound).
    rewrite Ho in Hrun. injection Hrun as -> _.
    rewrite no_entry_among_chars in Hfound. discriminate (Hfound eq_refl).
  - split.
    + intros msg w'' Hrun.
      destruct (run_find_model_outcomes name entries w') as (o & Ho & Hfound).
      rewrite Ho in Hrun. injection Hrun as -> _. exact (Hfound eq_refl).
    + intros Hdicts. rewrite (run_find_model_dicts name entries w' Hdicts).
      destruct (existsb (entry_named name) entries); eexists; reflexivity.
  - split; [| discriminate]. intros msg w'' Hrun.
    destruct (run_find_model_outcomes name (map (fun kv => PyStr (fst kv)) kvs) w')
      as (o & Ho & Hfound).
    rewrite Ho in Hrun. injection Hrun as -> _.
    rewrite no_entry_among_keys in Hfound. discriminate (Hfound eq_refl).
  - split; [discriminate | intros _; eexists; reflexivity].
Qed.

(** What the scan of [check_model_status] does on a list of entries: it
    stops with [true] at the first entry named as queried, raises at an
    entry that is not an object, and ends with [false]. *)
Lemma run_find_model_scan (name : string) (entries : list pyobj)
    (w : world_state E) :
  exists o,
    run E (find_model name entries) w = (o, w)
    /\ match o with
       | Ret (found, _) =>
           found = first_match name entries
           /\ stray_before_match name entries = false
       | Raise e =>
           exn_type e = AttributeError
           /\ first_match name entries = false
           /\ stray_before_match name entries = true
       end.
Proof.
  induction entries as [| entry rest IH];
    cbn [find_model first_match stray_before_match].
  - eexists. split; [reflexivity | split; reflexivity].
  - destruct entry as [| | | | | | fields];
      try (eexists; split; [reflexivity | repeat split]).
    cbn [get lift bind is_dict entry_named negb andb orb].
    destruct IH as (o & Hrun & Ho).
    destruct (dict_lookup fields "name") as [[| | | | s | |] |];
      cbn [eq_str negb andb orb]; try (exists o; split; [exact Hrun | exact Ho]).
    destruct (String.eqb s name); cbn [negb andb orb].
    + eexists. split; [reflexivity | split; reflexivity].
    + exists o. split; [exact Hrun | exact Ho].
Qed.

Lemma first_match_lists (name : string) (entries : list pyobj) :
  first_match name entries = true -> existsb (entry_named name) entries = true.
Proof.
  induction entries as [| entry rest IH]; cbn [first_match existsb]; [discriminate |].
  intros [_ [H | H]%orb_true_iff]%andb_true_iff; apply orb_true_iff; auto.
Qed.

Lemma first_match_on_objects (name : string) (entries : list pyobj) :
  forallb is_dict entries = true ->
  first_match name entries = existsb (entry_named name) entries
  /\ stray_before_match name entries = false.
Proof.
  induction entries as [| entry rest IH];
    cbn [forallb first_match stray_before_match existsb]; [split; reflexivity |].
  intros [Hentry Hrest]%andb_true_iff. destruct (IH Hrest) as [-> ->].
  rewrite Hentry. cbn [negb andb orb]. split; [reflexivity |].
  apply andb_false_r.
Qed.

Ltac settle :=
  repeat split; intros;
  repeat match goal with
         | H : exists _, _ |- _ => destruct H
         end;
  repeat match goal with
         | H : (_, _) = (_, _) |- _ => apply pair_equal_spec in H as [H _]
         end;
  repeat match goal with
         | H : Raise _ = Raise _ |- _ => injection H as H; subst
         end;
  first [ discriminate | reflexivity | tauto | congruence
        | eexists; reflexivity | eexists _, _; reflexivity
        | left; reflexivity | right; reflexivity ].

(** C3, as amended. [check_model_status] returns [true] exactly when the
    request yields HTTP 200 and a JSON object whose models array has an entry
    named exactly as queried with only objects before the first such entry.
    It raises exactly when the client raises an exception that is not a
    [RequestException] (at the request or when decoding a 200 body), or the
    200 body is not an object, or its models value is null, a boolean, a
    number, a non-empty string, a non-empty object, or an array with an
    entry that is not an object before any match; on a decoded body the
    exception is an [AttributeError] or a [TypeError].  In every other case
    it returns [false]. *)
Theorem check_model_status_exact_match (self : OllamaTester) (name : string)
    (w w' : world_state E) (a : outcome Response) :
  respond E (tags_request self) w = (a, w') ->
  ((exists msg w'',
       run E (check_model_status self name) w = (Ret (true, msg), w''))
   <-> tags_reach_model a name = true)
  /\ ((exists e w'', run E (check_model_status self name) w = (Raise e, w''))
      <-> tags_break_scan a name = true)
  /\ (tags_reach_model a name = false ->
      tags_break_scan a name = false ->
      exists msg,
        run E (check_model_status self name) w = (Ret (false, msg), w'))
  /\ (forall response body e w'',
         a = Ret response ->
         json response = Ret body ->
         run E (check_model_status self name) w = (Raise e, w'') ->
         exn_type e = AttributeError \/ exn_type e = TypeError).
Proof.
  clear urlparse_hostname.
  intros Hreq. rewrite run_check_model_status, Hreq.
  unfold tags_reach_model, tags_break_scan, network_exception.
  assert (Hscan : forall entries,
             ((exists msg w'',
                  run E (find_model name entries) w' = (Ret (true, msg), w''))
              <-> first_match name entries = true)
             /\ ((exists e w'', run E (find_model name entries) w' = (Raise e, w''))
                 <-> stray_before_match name entries = true)
             /\ (first_match name entries = false ->
                 stray_before_match name entries = false ->
                 exists msg,
                   run E (find_model name entries) w' = (Ret (false, msg), w'))
             /\ (forall e w'',
                    run E (find_model name entries) w' = (Raise e, w'') ->
                    exn_type e = AttributeError \/ exn_type e = TypeError)).
  { intros entries.
    destruct (run_find_model_scan name entries w') as (o & -> & Ho).
    destruct o as [[found msg] | e];
      [destruct Ho as [-> ->]; destruct (first_match name entries)
      | destruct Ho as (Hclass & -> & ->)]; settle. }
  destruct a as [response | e].
  2: { destruct (isinstance e RequestException); cbn [negb]; settle. }
  destruct (status_code response =? 200)%Z; cbn [andb]; [| settle].
  destruct (json response) as [body | e] eqn:Hjson.
  2: { destruct (isinstance e RequestException); cbn [negb]; settle. }
  destruct body as [| | | | | | items]; cbn [get]; try settle.
  destruct (dict_lookup items "models") as [models |]; cbn [iter];
    [| cbn [find_model run]; settle].
  destruct models as [| | | | s | entries | fields];
    cbn [iter breaks_scan]; try settle.
  - destruct s as [| c s]; cbn [chars find_model get lift bind run]; settle.
  - destruct (Hscan entries) as (Htrue & Hraise & Hfalse & Hclass).
    repeat split; intros; eauto; try (apply Htrue || apply Hraise); eauto.
  - destruct fields as [| [key value] fields];
      cbn [map fst find_model get lift bind run]; settle.
Qed.

(** C10. A 200 response whose body is a JSON object without a "models" field
    is read as an empty model list: [check_model_status] returns [false]
    with the message that the model is not loaded, and raises nothing. *)
Theorem check_model_status_missing_models (self : OllamaTester) (name : string)
    (w w' : world_state E) (response : Response) (items : list (string * pyobj)) :
  respond E (tags_request self) w = (Ret response, w') ->
  status_code response = 200 ->
  json response = Ret (PyDict items) ->
  dict_lookup items "models" = None ->
  run E (check_model_status self name) w
  = (Ret (false, "Model " +:+ name +:+ " is not loaded"), w').
Proof.
  intros Hreq Hcode Hjson Hmodels.
  rewrite run_check_model_status, Hreq, Hcode, Hjson. cbn [Z.eqb Pos.eqb get].
  rewrite Hmodels. reflexivity.
Qed.

Lemma run_test_endpoint (self : OllamaTester) (endpoint method : string)
    (data : option pyobj) (w : world_state E) :
  exists verdict : Response -> bool * string,
    run E (test_endpoint self endpoint method data) w =
    (let (a, w') :=
       respond E (requests_request method (base_url self +:+ endpoint) data
                                   (timeout self)) w in
     match a with
     | Ret response => (Ret (verdict response), w')
     | Raise e =>
         if isinstance e RequestException
         then (Ret (false, if isinstance e Timeout then "Request timed out"
                           else "Request failed: " +:+ exn_str e), w')
         else (Raise e, w')
     end)
    /\ faults E (test_endpoint self endpoint method data) w =
       (let (a, _) :=
          respond E (requests_request method (base_url self +:+ endpoint) data
                                      (timeout self)) w in
        fault (requests_request method (base_url self +:+ endpoint) data
                                (timeout self)) a).
Proof.
  eexists (fun response =>
             if (status_code response =? 401)%Z then _
             else if (status_code response =? 404)%Z then _
             else if (status_code response >=? 500)%Z then _
             else if (status_code response >=? 400)%Z then _ else _).
  unfold test_endpoint. rewrite run_try_except, faults_try_except.
  cbn [invoke run faults bind].
  destruct (respond E _ w) as [[response | e] w']; cbn [lift run faults bind fault app except].
  - destruct (status_code response =? 401)%Z; [split; reflexivity |].
    destruct (status_code response =? 404)%Z; [split; reflexivity |].
    destruct (status_code response >=? 500)%Z; [split; reflexivity |].
    destruct (status_code response >=? 400)%Z; split; reflexivity.
  - destruct (isinstance e Timeout) eqn:Ht.
    + rewrite (subclass_of_Timeout e Ht). split; reflexivity.
    + destruct (isinstance e RequestException); split; reflexivity.
Qed.

(** C2. The result of [test_endpoint] is decided by the answer to its one
    request, in this order: 401, then 404, then codes from 500, then the
    remaining codes from 400, and success for every code below 400; a
    [Timeout] exception gives "Request timed out", any other
    [RequestException] the generic failure message. *)
Theorem test_endpoint_status_policy (self : OllamaTester)
    (endpoint method : string) (data : option pyobj)
    (w w' : world_state E) (a : outcome Response) :
  respond E (requests_request method (base_url self +:+ endpoint) data
                              (timeout self)) w = (a, w') ->
  (forall response, a = Ret response ->
     (status_code response = 401 ->
      run E (test_endpoint self endpoint method data) w
      = (Ret (false, "Authentication failed"), w'))
     /\ (status_code response = 404 ->
         run E (test_endpoint self endpoint method data) w
         = (Ret (false, "Endpoint not found"), w'))
     /\ (500 <= status_code response ->
         run E (test_endpoint self endpoint method data) w
         = (Ret (false, "Server error: " +:+ str_of_int (status_code response)), w'))
     /\ (400 <= status_code response < 500 ->
         status_code response <> 401 -> status_code response <> 404 ->
         run E (test_endpoint self endpoint method data) w
         = (Ret (false, "Request failed: " +:+ str_of_int (status_code response)), w'))
     /\ (status_code response < 400 ->
         run E (test_endpoint self endpoint method data) w
         = (Ret (true, "Endpoint test successful: "
                         +:+ str_of_int (status_code response)), w')))
  /\ (forall e, a = Raise e ->
        (isinstance e Timeout = true ->
         run E (test_endpoint self endpoint method data) w
         = (Ret (false, "Request timed out"), w'))
        /\ (isinstance e Timeout = false ->
            isinstance e RequestException = true ->
            run E (test_endpoint self endpoint method data) w
            = (Ret (false, "Request failed: " +:+ exn_str e), w'))).
Proof.
  intros Hreq. unfold test_endpoint. rewrite run_try_except.
  cbn [invoke run bind]. rewrite Hreq. split.
  - intros response ->. cbn. repeat split; intros; codes.
  - intros e ->. cbn. split.
    + intros ->. reflexivity.
    + intros -> ->. reflexivity.
Qed.

(** *** Exceptions stay inside the checks *)

(** C7. No network or process exception escapes a check: the ping-based
    checks let no [OSError] or [SubprocessError] through, the HTTP-based
    checks no [RequestException]; and whenever a facility raises one of
    these during a check (or decoding the body does), the check returns
    [false] with a message. *)
Theorem checks_contain_failures (self : OllamaTester) (w : world_state E) :
  (forall host count,
      (forall e w',
          run E (ping_host urlparse_hostname self host count) w = (Raise e, w') ->
          process_exception e = false)
      /\ (forall e,
             In e (faults E (ping_host urlparse_hostname self host count) w) ->
             process_exception e = true ->
             exists msg w',
               run E (ping_host urlparse_hostname self host count) w
               = (Ret (false, msg), w')))
  /\ ((forall e w',
          run E (check_remote_server urlparse_hostname self) w = (Raise e, w') ->
          process_exception e = false)
      /\ (forall e,
             In e (faults E (check_remote_server urlparse_hostname self) w) ->
             process_exception e = true ->
             exists msg w',
               run E (check_remote_server urlparse_hostname self) w
               = (Ret (false, msg), w')))
  /\ ((forall e w',
          run E (check_server_availability self) w = (Raise e, w') ->
          network_exception e = false)
      /\ (forall e,
             In e (faults E (check_server_availability self) w) ->
             network_exception e = true ->
             exists msg w',
               run E (check_server_availability self) w = (Ret (false, msg), w')))
  /\ (forall name,
         (forall e w',
             run E (check_model_status self name) w = (Raise e, w') ->
             network_exception e = false)
         /\ (forall e,
                In e (faults E (check_model_status self name) w) ->
                network_exception e = true ->
                exists msg w',
                  run E (check_model_status self name) w = (Ret (false, msg), w'))
         /\ (forall response w' e,
                respond E (tags_request self) w = (Ret response, w') ->
                status_code response = 200 ->
                json response = Raise e ->
                network_exception e = true ->
                exists msg,
                  run E (check_model_status self name) w = (Ret (false, msg), w')))
  /\ (forall endpoint method data,
         (forall e w',
             run E (test_endpoint self endpoint method data) w = (Raise e, w') ->
             network_exception e = false)
         /\ (forall e,
                In e (faults E (test_endpoint self endpoint method data) w) ->
                network_exception e = true ->
                exists msg w',
                  run E (test_endpoint self endpoint method data) w
                  = (Ret (false, msg), w'))).
Proof.
  split; [intros host count; split |].
  3: split; [split |].
  5: split; [split |].
  7: split; [intros name; split; [| split] | intros endpoint method data; split].
  - intros e w' Hrun. apply ping_host_catches in Hrun.
    destruct (process_exception e) eqn:Hp; [| reflexivity].
    apply process_exception_ordinary in Hp. congruence.
  - intros e Hin Hp. apply (ping_host_converts self host count w e Hin).
    apply process_exception_ordinary, Hp.
  - intros e w'. apply check_remote_server_catches.
  - intros e Hin Hp. apply (check_remote_server_converts self w e Hin).
    apply process_exception_ordinary, Hp.
  - intros e w'. rewrite run_check_server_availability. unfold network_exception.
    destruct (respond E (tags_request self) w) as [[response | e1] w1]; [discriminate |].
    destruct (isinstance e1 RequestException) eqn:H; [discriminate |].
    intros [= <- _]. exact H.
  - intros e. rewrite faults_check_server_availability, run_check_server_availability.
    unfold network_exception.
    destruct (respond E (tags_request self) w) as [[response | e1] w1]; [contradiction |].
    intros [-> | []] ->. eexists _, _. reflexivity.
  - intros e w'. apply check_model_status_catches.
  - intros e. rewrite faults_check_model_status, run_check_model_status.
    unfold network_exception.
    destruct (respond E (tags_request self) w) as [[response | e1] w1]; [contradiction |].
    intros [-> | []] ->. eexists _, _. reflexivity.
  - intros response w' e Hreq Hcode Hjson. unfold network_exception. intros He.
    rewrite run_check_model_status, Hreq, Hcode, Hjson, He. eexists. reflexivity.
  - intros e w'.
    destruct (run_test_endpoint self endpoint method data w) as (verdict & -> & _).
    unfold network_exception.
    destruct (respond E _ w) as [[response | e1] w1]; [discriminate |].
    destruct (isinstance e1 RequestException) eqn:H; [discriminate |].
    intros [= <- _]. exact H.
  - intros e.
    destruct (run_test_endpoint self endpoint method data w) as (verdict & -> & ->).
    unfold network_exception.
    destruct (respond E _ w) as [[response | e1] w1]; [contradiction |].
    intros [-> | []] ->. eexists _, _. reflexivity.
Qed.

(** *** The composite diagnosis *)

(** The internet check opens a connection and makes no other call: it
    closes nothing itself, and what becomes of the socket it discards is
    left to the runtime. *)
Lemma check_internet_connectivity_calls (self : OllamaTester) (w : world_state E) :
  calls E (check_internet_connectivity self) w
  = [socket_create_connection ("8.8.8.8", 53) 3].
Proof.
  unfold check_internet_connectivity. cbn.
  destruct (respond E _ w) as [[sock | e] w']; cbn; [reflexivity |].
  destruct (isinstance e OSError); reflexivity.
Qed.

(** C1. Whenever the internet check returns false, [test_connection] returns
    a report whose status is [NO_INTERNET] and whose details hold exactly one
    entry, under the key "internet"; no later check runs, so the world is
    left as the internet check left it. *)
Theorem test_connection_no_internet (self : OllamaTester)
    (w w0 w1 : world_state E) (now : spec_float) :
  respond E time_time w = (now, w0) ->
  run E (check_internet_connectivity self) w0 = (Ret false, w1) ->
  exists r,
    run E (test_connection urlparse_hostname self) w = (Ret r, w1)
    /\ status r = NO_INTERNET
    /\ timestamp r = now
    /\ dom (details r) = {["internet"]}
    /\ details r !! "internet"
       = Some {| available := false; message := "No internet connection" |}.
Proof.
  intros Hclock Hnet.
  unfold test_connection. cbn [invoke run bind].
  rewrite Hclock, run_bind, Hnet. cbn.
  eexists. split; [reflexivity|]. cbn.
  split; [reflexivity|]. split; [reflexivity|]. split.
  - rewrite dom_insert_L, dom_empty_L. set_solver.
  - apply lookup_insert_eq.
Qed.

(** C5. For a remote configuration, when the internet check succeeds and
    [ping_host] fails, [test_connection] returns [REMOTE_SERVER_UNREACHABLE]
    and its details hold "internet" and "remote" but neither "server" nor
    "model". *)
Theorem test_connection_remote_unreachable (self : OllamaTester)
    (w w0 w1 w2 : world_state E) (now : spec_float)
    (host : option string) (ping_message : string) :
  is_local self = false ->
  respond E time_time w = (now, w0) ->
  run E (check_internet_connectivity self) w0 = (Ret true, w1) ->
  urlparse_hostname (base_url self) = Hostname host ->
  run E (ping_host urlparse_hostname self host 4) w1
  = (Ret (false, ping_message), w2) ->
  exists r,
    run E (test_connection urlparse_hostname self) w = (Ret r, w2)
    /\ status r = REMOTE_SERVER_UNREACHABLE
    /\ is_Some (details r !! "internet")
    /\ details r !! "remote"
       = Some {| available := false;
                 message := "Remote server ping failed: " +:+ ping_message |}
    /\ details r !! "server" = None
    /\ details r !! "model" = None.
Proof.
  intros Hremote Hclock Hnet Hhost Hping.
  apply negb_false_iff in Hremote.
  pose proof (check_remote_server_ping self w1 w2 host false ping_message
                Hremote Hhost Hping) as Hcheck.
  unfold test_connection. cbn [invoke run bind].
  rewrite Hclock, run_bind, Hnet. cbn [negb].
  rewrite Hremote, !run_bind, Hcheck. cbn.
  eexists. split; [reflexivity|]. cbn.
  split; [reflexivity|]. split; [by eexists|]. done.
Qed.

(** Every status [test_connection] returns is one it assigns on the way. *)
Lemma test_connection_status_in (self : OllamaTester) (w w' : world_state E)
    (r : connection_results) :
  run E (test_connection urlparse_hostname self) w = (Ret r, w') ->
  In (status r) produced_statuses.
Proof.
  unfold test_connection. cbn [invoke run bind].
  destruct (respond E time_time w) as [now w0].
  rewrite run_bind.
  destruct (run E (check_internet_connectivity self) w0) as [[[|] | e] w1];
    [| intros [= <- _]; cbn; tauto | discriminate].
  cbn [negb]. rewrite run_bind.
  destruct (is_remote self); [gate_on (check_remote_server urlparse_hostname self) |];
    cbn [run];
    gate_on (check_server_availability self);
    gate_on (check_model_status self "llama2");
    intros [= <- _]; cbn; tauto.
Qed.

(** *** The detailed report *)

(** C8. [get_detailed_status] runs the internet check, then the remote
    check exactly when the configuration is remote, then [test_endpoint] on
    "/api/tags", "/api/version" and "/api/health" in this order, whatever
    the earlier results were, and records every result under [tests]. *)
Theorem get_detailed_status_runs_all (self : OllamaTester)
    (w w0 w1 w2 w3 w4 w5 : world_state E) (now : spec_float)
    (internet : bool) (remote tags version health : bool * string) :
  respond E time_time w = (now, w0) ->
  run E (check_internet_connectivity self) w0 = (Ret internet, w1) ->
  (if is_remote self
   then run E (check_remote_server urlparse_hostname self) w1 = (Ret remote, w2)
   else w2 = w1) ->
  run E (test_endpoint self "/api/tags" "GET" None) w2 = (Ret tags, w3) ->
  run E (test_endpoint self "/api/version" "GET" None) w3 = (Ret version, w4) ->
  run E (test_endpoint self "/api/health" "GET" None) w4 = (Ret health, w5) ->
  exists st,
    run E (get_detailed_status urlparse_hostname self) w = (Ret st, w5)
    /\ tests st !! "internet" = Some (InternetFlag internet)
    /\ tests st !! "remote"
       = (if is_remote self then Some (RemoteEntry remote.1 remote.2) else None)
    /\ tests st !! "/api/tags" = Some (EndpointEntry tags.1 tags.2)
    /\ tests st !! "/api/version" = Some (EndpointEntry version.1 version.2)
    /\ tests st !! "/api/health" = Some (EndpointEntry health.1 health.2)
    /\ (forall key, is_Some (tests st !! key) ->
          key ∈ ["internet"; "remote"; "/api/tags"; "/api/version"; "/api/health"])
    /\ calls E (get_detailed_status urlparse_hostname self) w
       = (time_time :: calls E (check_internet_connectivity self) w0
            ++ (if is_remote self
                then calls E (check_remote_server urlparse_hostname self) w1
                else [])
            ++ calls E (test_endpoint self "/api/tags" "GET" None) w2
            ++ calls E (test_endpoint self "/api/version" "GET" None) w3
            ++ calls E (test_endpoint self "/api/health" "GET" None) w4)%list.
Proof.
  intros Hclock Hnet Hremote Htags Hversion Hhealth.
  unfold get_detailed_status, endpoints. cbn [invoke run calls bind].
  rewrite Hclock.
  assert (Hloop : forall st : detailed_status,
             run E (test_endpoints self ["/api/tags"; "/api/version"; "/api/health"] st) w2
             = (Ret (set_test "/api/health" (EndpointEntry health.1 health.2)
                       (set_test "/api/version" (EndpointEntry version.1 version.2)
                          (set_test "/api/tags" (EndpointEntry tags.1 tags.2) st))), w5)
             /\ calls E (test_endpoints self ["/api/tags"; "/api/version"; "/api/health"] st) w2
                = (calls E (test_endpoint self "/api/tags" "GET" None) w2
                     ++ calls E (test_endpoint self "/api/version" "GET" None) w3
                     ++ calls E (test_endpoint self "/api/health" "GET" None) w4)%list).
  { intros st. cbn [test_endpoints].
    rewrite run_bind, calls_bind, Htags. destruct tags as [ts tm].
    rewrite run_bind, calls_bind, Hversion. destruct version as [vs vm].
    rewrite run_bind, calls_bind, Hhealth. destruct health as [hs hm].
    cbn [run calls fst snd]. rewrite app_nil_r. split; reflexivity. }
  rewrite run_bind, calls_bind, Hnet, run_bind, calls_bind.
  assert (Hkeys : forall (m : gmap string test_entry) key,
             is_Some (m !! key) ->
             (forall k, is_Some (m !! k) -> k = "internet" \/ k = "remote"
                                            \/ k = "/api/tags" \/ k = "/api/version"
                                            \/ k = "/api/health") ->
             key ∈ ["internet"; "remote"; "/api/tags"; "/api/version"; "/api/health"]).
  { intros m key Hkey Hall. rewrite !elem_of_cons. pose proof (Hall key Hkey). tauto. }
  destruct (is_remote self) eqn:Hflag.
  - rewrite run_bind, calls_bind, Hremote. destruct remote as [ra rm]. cbn [run calls].
    rewrite app_nil_r.
    match goal with |- context [test_endpoints self _ ?st] =>
      destruct (Hloop st) as [-> ->] end.
    eexists. split; [reflexivity |]. cbn [tests set_test fst snd].
    repeat (split; [vm_compute; reflexivity |]). split; [| reflexivity].
    intros key Hkey. apply (Hkeys _ key Hkey). intros k [v Hv].
    repeat (apply lookup_insert_Some in Hv as [[<- _] | [_ Hv]]; [tauto |]).
    by rewrite lookup_empty in Hv.
  - subst w2. cbn [run calls app].
    match goal with |- context [test_endpoints self _ ?st] =>
      destruct (Hloop st) as [-> ->] end.
    eexists. split; [reflexivity |]. cbn [tests set_test fst snd].
    repeat (split; [vm_compute; reflexivity |]). split; [| reflexivity].
    intros key Hkey. apply (Hkeys _ key Hkey). intros k [v Hv].
    repeat (apply lookup_insert_Some in Hv as [[<- _] | [_ Hv]]; [tauto |]).
    by rewrite lookup_empty in Hv.
Qed.

End ProbeProperties.

(** ** The claims on concrete worlds *)

Lemma test_connection_no_internet_witness :
  exists r,
    run (scripted offline) (test_connection example_urlparse local_probe) []
    = (Ret r, [])
    /\ status r = NO_INTERNET
    /\ timestamp r = clock offline
    /\ dom (details r) = {["internet"]}
    /\ details r !! "internet"
       = Some {| available := false; message := "No internet connection" |}.
Proof.
  apply (test_connection_no_internet example_urlparse (scripted offline)
           local_probe [] [] [] (clock offline)); reflexivity.
Defined.

Lemma test_endpoint_status_policy_witness :
  run (scripted teapot) (test_endpoint local_probe "/api/tags" "GET" None) []
  = (Ret (false, "Request failed: 418"), []).
Proof.
  destruct (test_endpoint_status_policy (scripted teapot) local_probe
              "/api/tags" "GET" None [] []
              (Ret {| status_code := 418; json := Ret PyNone |}) eq_refl)
    as [Hcode _].
  destruct (Hcode _ eq_refl) as (_ & _ & _ & Hfailed & _).
  apply Hfailed; cbn; [lia | discriminate | discriminate].
Defined.

(** The five fixtures of the specification. *)
Example test_endpoint_fixtures :
  map (fun code =>
         fst (run (scripted (with_http healthy
                      (fun _ _ => Ret {| status_code := code; json := Ret PyNone |})))
                  (test_endpoint local_probe "/api/version" "GET" None) []))
      [401; 404; 503; 418; 200]
  = [Ret (false, "Authentication failed"); Ret (false, "Endpoint not found");
     Ret (false, "Server error: 503"); Ret (false, "Request failed: 418");
     Ret (true, "Endpoint test successful: 200")].
Proof. vm_compute. reflexivity. Qed.

(** C3, as stated, fails: the body lists llama2 in its models array, yet an
    entry before it is not an object and the call raises [AttributeError]
    instead of returning [true]. *)
Lemma check_model_status_stray_entry :
  respond (scripted stray_entry) (tags_request local_probe) []
  = (Ret (tags_response stray_entry_body), [])
  /\ tags_list_model (Ret (tags_response stray_entry_body)) "llama2" = true
  /\ run (scripted stray_entry) (check_model_status local_probe "llama2") []
     = (Raise (no_attribute (PyInt 1) "get"), [])
  /\ ~ (exists result w',
          run (scripted stray_entry) (check_model_status local_probe "llama2") []
          = (Ret result, w')).
Proof.
  split; [reflexivity |]. split; [reflexivity |]. split; [reflexivity |].
  intros (result & w' & H). discriminate H.
Qed.

Lemma check_model_status_exact_match_witness :
  respond (scripted healthy) (tags_request local_probe) []
  = (Ret (tags_response llama2_body), [])
  /\ exists msg w'',
       run (scripted healthy) (check_model_status local_probe "llama2") []
       = (Ret (true, msg), w'').
Proof.
  split; [reflexivity |].
  destruct (check_model_status_exact_match (scripted healthy) local_probe "llama2"
              [] [] (Ret (tags_response llama2_body)) eq_refl) as [Hreach _].
  apply Hreach. reflexivity.
Defined.

(** A match that comes before a stray entry is found: the scan never reaches
    the stray entry. *)
Example check_model_status_match_before_stray :
  run (scripted
         (with_http healthy
            (fun _ _ =>
               Ret (tags_response
                      (PyDict [("models",
                                PyList [PyDict [("name", PyStr "llama2")];
                                        PyInt 1])])))))
      (check_model_status local_probe "llama2") []
  = (Ret (true, "Model llama2 is available"), []).
Proof. reflexivity. Qed.

(** An empty string or an empty object as the models value is scanned like an
    empty array; a non-empty one makes the scan raise. *)
Example check_model_status_empty_models_values :
  map (fun models =>
         fst (run (scripted
                     (with_http healthy
                        (fun _ _ =>
                           Ret (tags_response (PyDict [("models", models)])))))
                  (check_model_status local_probe "llama2") []))
      [PyStr ""; PyDict []; PyStr "a"; PyDict [("llama2", PyNone)]]
  = [Ret (false, "Model llama2 is not loaded");
     Ret (false, "Model llama2 is not loaded");
     Raise (no_attribute (PyStr "a") "get");
     Raise (no_attribute (PyStr "llama2") "get")].
Proof. reflexivity. Qed.

(** Matching is exact: case, surrounding blanks and tags all count. *)
Example entry_named_is_exact :
  map (fun name => entry_named "llama2" (PyDict [("name", PyStr name)]))
      ["llama2"; "Llama2"; " llama2"; "llama2 "; "llama2:latest"; "llama"]
  = [true; false; false; false; false; false].
Proof. reflexivity. Qed.

Lemma check_model_status_missing_models_witness :
  run (scripted no_models_field) (check_model_status local_probe "llama2") []
  = (Ret (false, "Model llama2 is not loaded"), []).
Proof.
  apply (check_model_status_missing_models (scripted no_models_field) local_probe
           "llama2" [] [] (tags_response (PyDict [])) []); reflexivity.
Defined.

(** An exception that is not a network failure is not the check's to catch:
    a body that is not an object makes [check_model_status] raise. *)
Example check_model_status_array_body :
  run (scripted (with_http healthy (fun _ _ => Ret (tags_response (PyList [])))))
      (check_model_status local_probe "llama2") []
  = (Raise (no_attribute (PyList []) "get"), []).
Proof. reflexivity. Qed.

Lemma locality_flag_witness :
  exists self,
    run (scripted on_lan)
        (__init__ example_urlparse "http://ollama.example.com:11434" 30) []
    = (Ret self, [])
    /\ is_local self = true.
Proof.
  destruct (locality_flag example_urlparse (scripted on_lan)
              "http://ollama.example.com:11434" 30 []
              (Some "ollama.example.com") eq_refl) as (_ & Hresolved & _).
  apply (Hresolved eq_refl (x0a, x00, x00, x05) [] eq_refl).
Defined.

(** A public address, a loopback literal and a failed resolution. *)
Example locality_examples :
  fst (run (scripted healthy)
           (__init__ example_urlparse "http://ollama.example.com:11434" 30) [])
  = Ret remote_probe
  /\ fst (run (scripted healthy)
              (__init__ example_urlparse "http://localhost:11434" 30) [])
     = Ret local_probe
  /\ fst (run (scripted
                 {| clock := clock healthy; connect := connect healthy;
                    resolve := fun _ => Raise (Exn gaierror "Name or service not known");
                    system := system healthy; ping := ping healthy;
                    http := http healthy |})
              (__init__ example_urlparse "http://ollama.example.com:11434" 30) [])
     = Ret remote_probe.
Proof. vm_compute. repeat split. Qed.

Lemma test_connection_remote_unreachable_witness :
  exists r,
    run (scripted unreachable) (test_connection example_urlparse remote_probe) []
    = (Ret r, [3%nat])
    /\ status r = REMOTE_SERVER_UNREACHABLE
    /\ is_Some (details r !! "internet")
    /\ details r !! "remote"
       = Some {| available := false;
                 message := "Remote server ping failed: "
                            +:+ "Failed to ping ollama.example.com: ping: unknown host" |}
    /\ details r !! "server" = None
    /\ details r !! "model" = None.
Proof.
  apply (test_connection_remote_unreachable example_urlparse (scripted unreachable)
           remote_probe [] [] [3%nat] [3%nat] (clock unreachable)
           (Some "ollama.example.com")); reflexivity.
Defined.

(** C6. The status of every report [test_connection] returns is one of
    [CONNECTED], [NO_INTERNET], [REMOTE_SERVER_UNREACHABLE],
    [SERVER_UNREACHABLE] and [MODEL_NOT_LOADED], so never
    [AUTHENTICATION_FAILED], [TIMEOUT], [RESOURCE_UNAVAILABLE] or the initial
    [UNKNOWN_ERROR]; and each of the five is returned in some world. *)
Theorem test_connection_statuses :
  (forall urlparse_hostname E self (w w' : world_state E) r,
      run E (test_connection urlparse_hostname self) w = (Ret r, w') ->
      In (status r) produced_statuses
      /\ ~ In (status r)
             [AUTHENTICATION_FAILED; TIMEOUT; RESOURCE_UNAVAILABLE; UNKNOWN_ERROR])
  /\ (forall s,
         In s produced_statuses ->
         exists urlparse_hostname E self (w w' : world_state E) r,
           run E (test_connection urlparse_hostname self) w = (Ret r, w')
           /\ status r = s).
Proof.
  split.
  - intros up E self w w' r Hrun.
    pose proof (test_connection_status_in up E self w w' r Hrun) as Hin.
    split; [exact Hin |].
    unfold produced_statuses in Hin. cbn in Hin |- *.
    intros Hout.
    repeat (destruct Hin as [Hin | Hin]; [rewrite <- Hin in Hout; intuition discriminate |]).
    exact Hin.
  - intros s Hs. exists example_urlparse. cbn in Hs.
    destruct Hs as [<- | [<- | [<- | [<- | [<- | []]]]]].
    + exists (scripted healthy), local_probe, [], [3%nat]. eexists.
      split; [vm_compute; reflexivity | reflexivity].
    + exists (scripted offline), local_probe, [], []. eexists.
      split; [vm_compute; reflexivity | reflexivity].
    + exists (scripted unreachable), remote_probe, [], [3%nat]. eexists.
      split; [vm_compute; reflexivity | reflexivity].
    + exists (scripted server_down), local_probe, [], [3%nat]. eexists.
      split; [vm_compute; reflexivity | reflexivity].
    + exists (scripted no_models), local_probe, [], [3%nat]. eexists.
      split; [vm_compute; reflexivity | reflexivity].
Qed.

Lemma checks_contain_failures_witness :
  exists msg w',
    run (scripted server_down) (check_server_availability local_probe) []
    = (Ret (false, msg), w').
Proof.
  destruct (checks_contain_failures example_urlparse (scripted server_down)
              local_probe []) as (_ & _ & [_ Hconverted] & _).
  apply (Hconverted (Exn ConnectionError "Connection refused")).
  - left. reflexivity.
  - reflexivity.
Defined.

Lemma get_detailed_status_runs_all_witness :
  exists st,
    run (scripted server_down) (get_detailed_status example_urlparse remote_probe) []
    = (Ret st, [3%nat])
    /\ tests st !! "internet" = Some (InternetFlag true)
    /\ tests st !! "remote" = Some (RemoteEntry true "Remote server is reachable")
    /\ tests st !! "/api/tags"
       = Some (EndpointEntry false "Request failed: Connection refused")
    /\ tests st !! "/api/version"
       = Some (EndpointEntry false "Request failed: Connection refused")
    /\ tests st !! "/api/health"
       = Some (EndpointEntry false "Request failed: Connection refused")
    /\ (forall key, is_Some (tests st !! key) ->
          key ∈ ["internet"; "remote"; "/api/tags"; "/api/version"; "/api/health"])
    /\ calls (scripted server_down)
             (get_detailed_status example_urlparse remote_probe) []
       = [time_time;
          socket_create_connection ("8.8.8.8", 53) 3;
          platform_system;
          subprocess_run [Some "ping"; Some "-c"; Some "4";
                          Some "ollama.example.com"] 30;
          requests_request "GET" "http://ollama.example.com:11434/api/tags" None 30;
          requests_request "GET" "http://ollama.example.com:11434/api/version" None 30;
          requests_request "GET" "http://ollama.example.com:11434/api/health" None 30].
Proof.
  apply (get_detailed_status_runs_all example_urlparse (scripted server_down)
           remote_probe [] [] [3%nat] [3%nat] [3%nat] [3%nat] [3%nat]
           (clock server_down) true
           (true, "Remote server is reachable")
           (false, "Request failed: Connection refused")
           (false, "Request failed: Connection refused")
           (false, "Request failed: Connection refused")); reflexivity.
Defined.

(** ** The runtime model on examples *)

Example timeouts_are_request_exceptions :
  issubclass ConnectTimeout Timeout = true
  /\ issubclass ReadTimeout RequestException = true
  /\ issubclass JSONDecodeError RequestException = true
  /\ issubclass TimeoutExpired Exception = true
  /\ issubclass KeyboardInterrupt Exception = false
  /\ issubclass gaierror RequestException = false.
Proof. repeat split. Qed.

Example ping_of_a_url_uses_its_host :
  calls (scripted healthy)
        (ping_host example_urlparse remote_probe
                   (Some "http://ollama.example.com:11434") 4) []
  = [platform_system;
     subprocess_run [Some "ping"; Some "-c"; Some "4"; Some "ollama.example.com"] 30].
Proof. reflexivity. Qed.

Example ping_without_a_host_fails :
  run (scripted healthy) (ping_host example_urlparse remote_probe None 4) []
  = (Ret (false,
          "Error pinging None: 'NoneType' object has no attribute 'startswith'"),
     []).
Proof. reflexivity. Qed.

Example inet_ntoa_example : inet_ntoa (xac, x10, x00, xff) = "172.16.0.255".
Proof. reflexivity. Qed.

(** ** Further properties of the probe *)

(** The first steps of [test_connection] when the internet check and the
    remote gate pass: the run continues at the server check. *)
Ltac past_remote_gate Hclock Hnet Hgate Hflag :=
  unfold test_connection; cbn [invoke run bind];
  rewrite Hclock, run_bind, Hnet; cbn [negb]; rewrite run_bind;
  match goal with
  | |- context [is_remote ?self] => destruct (is_remote self) eqn:Hflag
  end;
  [ destruct Hgate as [? Hgate]; rewrite run_bind, Hgate; cbn [negb run]
  | subst; cbn [run] ].

Ltac remote_entry_iff :=
  first
    [ intros _; eexists; vm_compute; reflexivity
    | split;
      [ intros [? Hsome]; first [reflexivity | vm_compute in Hsome; discriminate Hsome]
      | intros Heq; first [discriminate Heq | eexists; vm_compute; reflexivity] ] ].

(** Case analysis on the next check of [test_connection], keeping every
    way the run can end. *)
Ltac branch_on m :=
  rewrite run_bind;
  match goal with
  | |- context [run ?E m ?w] =>
      destruct (run E m w) as [[[[|] ?] | ?] ?]; cbn [negb run];
      [| | discriminate]
  end.

Ltac refute_all_available H :=
  exfalso;
  first
    [ pose proof (H "internet") as Hk; vm_compute in Hk;
      discriminate (Hk _ eq_refl)
    | pose proof (H "remote") as Hk; vm_compute in Hk;
      discriminate (Hk _ eq_refl)
    | pose proof (H "server") as Hk; vm_compute in Hk;
      discriminate (Hk _ eq_refl)
    | pose proof (H "model") as Hk; vm_compute in Hk;
      discriminate (Hk _ eq_refl) ].

Section MoreProperties.

Variable urlparse_hostname : string -> parsed_host.
Variable E : world.

Lemma calls_try_except {A : Type} (body : prog A) clauses (w : world_state E) :
  calls E (try_except body clauses) w =
  (calls E body w ++
   match run E body w with
   | (Ret _, _) => []
   | (Raise e, w') =>
       match clauses e with
       | Some handler => calls E handler w'
       | None => []
       end
   end)%list.
Proof.
  revert w. induction body as [a | e | c k IH]; intros w; cbn.
  - reflexivity.
  - destruct (clauses e); reflexivity.
  - destruct (respond E c w) as [x w']. rewrite IH. reflexivity.
Qed.

Lemma calls_try_rebinding {S A : Type} (old : S) (rebind : prog S)
    (rest : S -> prog A) clauses (w : world_state E) :
  calls E (try_rebinding old rebind rest clauses) w =
  (calls E rebind w ++
   match run E rebind w with
   | (Ret s, w') => calls E (try_except (rest s) (clauses s)) w'
   | (Raise e, w') =>
       match clauses old e with
       | Some handler => calls E handler w'
       | None => []
       end
   end)%list.
Proof.
  unfold try_rebinding.
  rewrite calls_bind, calls_try_except, calls_bind, run_try_except, run_bind.
  destruct (run E rebind w) as [[s | e] w']; cbn.
  - rewrite !app_nil_r. reflexivity.
  - rewrite app_nil_r, <- app_assoc. f_equal.
    destruct (clauses old e) as [handler |]; cbn; [| reflexivity].
    rewrite calls_bind, run_bind.
    destruct (run E handler w') as [[a | e'] w'']; cbn; rewrite !app_nil_r; reflexivity.
Qed.

Lemma ping_clauses_make_no_call (host : option string) (e : exn) (w : world_state E) :
  match ping_clauses host e with
  | Some handler => calls E handler w
  | None => []
  end = [].
Proof.
  unfold ping_clauses. cbn [except].
  destruct (isinstance e TimeoutExpired); [reflexivity |].
  destruct (isinstance e Exception); reflexivity.
Qed.

(** X1. [check_internet_connectivity] returns [true] when the connection to
    8.8.8.8:53 opens, [false] when opening it raises an [OSError], and lets
    any other exception through; the configuration plays no part. *)
Theorem check_internet_connectivity_outcome (self : OllamaTester)
    (w w' : world_state E) (a : outcome socket) :
  respond E (socket_create_connection ("8.8.8.8", 53) 3) w = (a, w') ->
  run E (check_internet_connectivity self) w =
  match a with
  | Ret _ => (Ret true, w')
  | Raise e => if isinstance e OSError then (Ret false, w') else (Raise e, w')
  end.
Proof.
  intros Hconnect. unfold check_internet_connectivity.
  rewrite run_try_except. cbn [invoke run bind]. rewrite Hconnect.
  destruct a as [sock | e]; cbn [lift run bind except]; [reflexivity |].
  destruct (isinstance e OSError); reflexivity.
Qed.

(** X2. For a local configuration [check_remote_server] answers [true]
    at once and calls no facility: nothing is pinged. *)
Theorem check_remote_server_local_makes_no_call (self : OllamaTester)
    (w : world_state E) :
  is_remote self = false ->
  run E (check_remote_server urlparse_hostname self) w
  = (Ret (true, "Local server, no ping test needed"), w)
  /\ calls E (check_remote_server urlparse_hostname self) w = [].
Proof.
  intros Hlocal. unfold check_remote_server. rewrite Hlocal. split; reflexivity.
Qed.

(** X3. For a remote configuration [check_remote_server] pings the host of
    the base address four times and returns the flag of [ping_host]: a
    failure carries the ping's message behind "Remote server ping failed: ",
    a success drops it. *)
Theorem check_remote_server_follows_ping (self : OllamaTester)
    (w w' : world_state E) (host : option string) (reached : bool)
    (ping_message : string) :
  is_remote self = true ->
  urlparse_hostname (base_url self) = Hostname host ->
  run E (ping_host urlparse_hostname self host 4) w
  = (Ret (reached, ping_message), w') ->
  run E (check_remote_server urlparse_hostname self) w
  = (Ret (reached,
          if reached then "Remote server is reachable"
          else "Remote server ping failed: " +:+ ping_message), w')
  /\ calls E (check_remote_server urlparse_hostname self) w
     = calls E (ping_host urlparse_hostname self host 4) w.
Proof.
  intros Hremote Hhost Hping. split.
  - rewrite (check_remote_server_ping urlparse_hostname E self w w' host reached
               ping_message Hremote Hhost Hping).
    destruct reached; reflexivity.
  - unfold check_remote_server. rewrite Hremote, Hhost. cbn [negb hostname_of bind].
    rewrite calls_bind, Hping. destruct reached; cbn [negb calls]; apply app_nil_r.
Qed.
(** [ping_host] on a host that has a target, once the platform is known. *)
Lemma ping_host_on_target (self : OllamaTester) (h : string) (count : Z)
    (w w1 : world_state E) (target : option string) (system_name : string) :
  ping_target urlparse_hostname h = Hostname target ->
  respond E platform_system w = (Ret system_name, w1) ->
  run E (ping_host urlparse_hostname self (Some h) count) w
  = (let (a, w2) :=
       respond E (subprocess_run (ping_command system_name count target)
                                 (timeout self)) w1 in
     match a with
     | Ret result =>
         (Ret (if (returncode result =? 0)%Z
               then (true, "Successfully pinged " +:+ format_opt target)
               else (false, "Failed to ping " +:+ format_opt target +:+ ": "
                              +:+ stderr result)), w2)
     | Raise e =>
         if isinstance e TimeoutExpired
         then (Ret (false, "Ping timeout for " +:+ format_opt target), w2)
         else if isinstance e Exception
              then (Ret (false, "Error pinging " +:+ format_opt target +:+ ": "
                                  +:+ exn_str e), w2)
              else (Raise e, w2)
     end)
  /\ calls E (ping_host urlparse_hostname self (Some h) count) w
     = [platform_system;
        subprocess_run (ping_command system_name count target) (timeout self)].
Proof.
  intros Htarget Hsystem. unfold ping_host, ping_target, ping_command in *.
  rewrite run_try_rebinding, calls_try_rebinding.
  assert (Hrebind : forall w0 : world_state E,
             run E (if startswith h ["http://"; "https://"]
                    then hostname_of (urlparse_hostname h)
                    else Return (Some h)) w0 = (Ret target, w0)
             /\ calls E (if startswith h ["http://"; "https://"]
                         then hostname_of (urlparse_hostname h)
                         else Return (Some h)) w0 = []).
  { intros w0. destruct (startswith h _).
    - rewrite Htarget. split; reflexivity.
    - injection Htarget as <-. split; reflexivity. }
  destruct (Hrebind w) as [-> ->].
  rewrite run_try_except, calls_try_except. cbn [invoke run calls bind app].
  rewrite Hsystem. cbn [lift run calls bind].
  destruct (String.eqb (lower system_name) "windows");
    (destruct (respond E (subprocess_run _ _) w1) as [[result | e] w2];
     cbn [lift run calls bind app];
     [ destruct (returncode result =? 0)%Z; split; reflexivity
     | rewrite ping_clauses_make_no_call; unfold ping_clauses; cbn [except];
       destruct (isinstance e TimeoutExpired); [split; reflexivity |];
       destruct (isinstance e Exception); split; reflexivity ]).
Qed.

(** X4. [ping_host] asks for the platform and then runs one command:
    ping, "-n" on Windows (in any letter case) and "-c" elsewhere, the count
    in decimal, and the target (the host name of an http or https URL, the
    argument itself otherwise), under the configured timeout. *)
Theorem ping_host_command (self : OllamaTester) (h : string) (count : Z)
    (w w1 : world_state E) (target : option string) (system_name : string) :
  ping_target urlparse_hostname h = Hostname target ->
  respond E platform_system w = (Ret system_name, w1) ->
  calls E (ping_host urlparse_hostname self (Some h) count) w
  = [platform_system;
     subprocess_run
       [Some "ping";
        Some (if String.eqb (lower system_name) "windows" then "-n" else "-c");
        Some (str_of_int count); target]
       (timeout self)].
Proof.
  intros Htarget Hsystem.
  apply (ping_host_on_target self h count w w1 target system_name Htarget Hsystem).
Qed.

(** X5. When the ping command finishes, [ping_host] succeeds exactly when
    its exit code is zero; otherwise the message carries the standard
    error of the command. *)
Theorem ping_host_exit_code (self : OllamaTester) (h : string) (count : Z)
    (w w1 w2 : world_state E) (target : option string) (system_name : string)
    (result : CompletedProcess) :
  ping_target urlparse_hostname h = Hostname target ->
  respond E platform_system w = (Ret system_name, w1) ->
  respond E (subprocess_run (ping_command system_name count target) (timeout self)) w1
  = (Ret result, w2) ->
  run E (ping_host urlparse_hostname self (Some h) count) w
  = (Ret (if (returncode result =? 0)%Z
          then (true, "Successfully pinged " +:+ format_opt target)
          else (false, "Failed to ping " +:+ format_opt target +:+ ": "
                         +:+ stderr result)), w2).
Proof.
  intros Htarget Hsystem Hrun.
  destruct (ping_host_on_target self h count w w1 target system_name Htarget Hsystem)
    as [-> _].
  rewrite Hrun. reflexivity.
Qed.

(** X6. When running the ping command raises, [ping_host] returns [false]:
    with "Ping timeout for ..." for a [TimeoutExpired], with "Error pinging
    ...: ..." for any other ordinary exception; both name the target. *)
Theorem ping_host_failure_messages (self : OllamaTester) (h : string) (count : Z)
    (w w1 w2 : world_state E) (target : option string) (system_name : string)
    (e : exn) :
  ping_target urlparse_hostname h = Hostname target ->
  respond E platform_system w = (Ret system_name, w1) ->
  respond E (subprocess_run (ping_command system_name count target) (timeout self)) w1
  = (Raise e, w2) ->
  isinstance e Exception = true ->
  run E (ping_host urlparse_hostname self (Some h) count) w
  = (Ret (false,
          if isinstance e TimeoutExpired
          then "Ping timeout for " +:+ format_opt target
          else "Error pinging " +:+ format_opt target +:+ ": " +:+ exn_str e), w2).
Proof.
  intros Htarget Hsystem Hrun Hexn.
  destruct (ping_host_on_target self h count w w1 target system_name Htarget Hsystem)
    as [-> _].
  rewrite Hrun, Hexn. destruct (isinstance e TimeoutExpired); reflexivity.
Qed.

(** X7. With no host ([None]) or a URL that [urlparse] refuses, [ping_host]
    returns [false] with "Error pinging ...", naming the argument as given,
    and runs nothing. *)
Theorem ping_host_without_target (self : OllamaTester) (count : Z)
    (w : world_state E) :
  (run E (ping_host urlparse_hostname self None count) w
   = (Ret (false, "Error pinging None: 'NoneType' object has no attribute 'startswith'"), w)
   /\ calls E (ping_host urlparse_hostname self None count) w = [])
  /\ (forall h text,
         ping_target urlparse_hostname h = InvalidURL text ->
         run E (ping_host urlparse_hostname self (Some h) count) w
         = (Ret (false, "Error pinging " +:+ h +:+ ": " +:+ text), w)
         /\ calls E (ping_host urlparse_hostname self (Some h) count) w = []).
Proof.
  split; [split; reflexivity |].
  intros h text Htarget. unfold ping_host, ping_target in *.
  rewrite run_try_rebinding, calls_try_rebinding.
  destruct (startswith h _); [| discriminate].
  rewrite Htarget. split; reflexivity.
Qed.

(** X8. [check_server_availability] returns [true] exactly when the
    request yields status 200; every other status gives [false] with the
    code in the message. *)
Theorem check_server_availability_iff_200 (self : OllamaTester)
    (w w' : world_state E) (a : outcome Response) :
  respond E (tags_request self) w = (a, w') ->
  ((exists msg, run E (check_server_availability self) w = (Ret (true, msg), w'))
   <-> exists response, a = Ret response /\ status_code response = 200)
  /\ (forall response,
         a = Ret response -> status_code response <> 200 ->
         run E (check_server_availability self) w
         = (Ret (false, "Server returned status code: "
                          +:+ str_of_int (status_code response)), w')).
Proof.
  intros Hreq. rewrite run_check_server_availability, Hreq. split; [split |].
  - intros [msg Hrun]. destruct a as [response | e].
    + exists response. split; [reflexivity |].
      destruct (Z.eqb_spec (status_code response) 200); [assumption | discriminate].
    + destruct (isinstance e RequestException); discriminate.
  - intros (response & -> & ->). eexists. reflexivity.
  - intros response -> Hcode.
    destruct (Z.eqb_spec (status_code response) 200); [contradiction | reflexivity].
Qed.

(** X9. On a status other than 200 [check_model_status] returns [false]
    with the code in the message, whatever the body is: the body is not
    decoded. *)
Theorem check_model_status_other_status (self : OllamaTester) (name : string)
    (w w' : world_state E) (response : Response) :
  respond E (tags_request self) w = (Ret response, w') ->
  status_code response <> 200 ->
  run E (check_model_status self name) w
  = (Ret (false, "Failed to check model status: "
                   +:+ str_of_int (status_code response)), w').
Proof.
  intros Hreq Hcode. rewrite run_check_model_status, Hreq.
  destruct (Z.eqb_spec (status_code response) 200); [contradiction | reflexivity].
Qed.

(** X10. The default of [get("models", [])] covers a missing key only: a
    200 body whose "models" is [null] makes [check_model_status] raise
    [TypeError], which its handler does not catch. *)
Theorem check_model_status_null_models (self : OllamaTester) (name : string)
    (w w' : world_state E) (response : Response) (items : list (string * pyobj)) :
  respond E (tags_request self) w = (Ret response, w') ->
  status_code response = 200 ->
  json response = Ret (PyDict items) ->
  dict_lookup items "models" = Some PyNone ->
  run E (check_model_status self name) w
  = (Raise (Exn TypeError "'NoneType' object is not iterable"), w').
Proof.
  intros Hreq Hcode Hjson Hmodels.
  rewrite run_check_model_status, Hreq, Hcode, Hjson. cbn [Z.eqb Pos.eqb get].
  rewrite Hmodels. reflexivity.
Qed.

(** X11. [test_endpoint] reports success exactly when the request returns
    a response with a status code below 400. *)
Theorem test_endpoint_success_iff_below_400 (self : OllamaTester)
    (endpoint method : string) (data : option pyobj)
    (w w' : world_state E) (a : outcome Response) :
  respond E (requests_request method (base_url self +:+ endpoint) data
                              (timeout self)) w = (a, w') ->
  ((exists msg,
       run E (test_endpoint self endpoint method data) w = (Ret (true, msg), w'))
   <-> exists response, a = Ret response /\ status_code response < 400).
Proof.
  intros Hreq. unfold test_endpoint. rewrite run_try_except.
  cbn [invoke run bind]. rewrite Hreq.
  destruct a as [response | e]; cbn [lift run bind except].
  - split.
    + intros [msg Hrun]. exists response. split; [reflexivity |].
      revert Hrun. codes; discriminate.
    + intros (r & [= <-] & Hcode). eexists. codes.
  - split.
    + intros [msg Hrun]. destruct (isinstance e Timeout); [discriminate |].
      destruct (isinstance e RequestException); discriminate.
    + intros (r & Hr & _). discriminate.
Qed.

(** X15. When the internet check and the remote gate pass and the server
    check fails, [test_connection] returns [SERVER_UNREACHABLE]; the details
    hold the failed server entry, no model entry, and a remote entry
    exactly for a remote configuration. *)
Theorem test_connection_server_unreachable (self : OllamaTester)
    (w w0 w1 w2 w3 : world_state E) (now : spec_float) (server_message : string) :
  respond E time_time w = (now, w0) ->
  run E (check_internet_connectivity self) w0 = (Ret true, w1) ->
  (if is_remote self
   then exists remote_message,
       run E (check_remote_server urlparse_hostname self) w1
       = (Ret (true, remote_message), w2)
   else w2 = w1) ->
  run E (check_server_availability self) w2 = (Ret (false, server_message), w3) ->
  exists r,
    run E (test_connection urlparse_hostname self) w = (Ret r, w3)
    /\ status r = SERVER_UNREACHABLE
    /\ details r !! "internet"
       = Some {| available := true; message := "Internet is available" |}
    /\ details r !! "server"
       = Some {| available := false; message := server_message |}
    /\ details r !! "model" = None
    /\ (is_Some (details r !! "remote") <-> is_remote self = true).
Proof.
  intros Hclock Hnet Hgate Hserver.
  past_remote_gate Hclock Hnet Hgate Hflag.
  all: rewrite run_bind, Hserver; cbn [negb run].
  all: eexists; split; [reflexivity |].
  all: repeat (split; [vm_compute; reflexivity |]).
  all: remote_entry_iff.
Qed.

(** X16. When every check up to the server check passes and the model
    check for "llama2" fails, [test_connection] returns [MODEL_NOT_LOADED]
    and records the failed model entry. *)
Theorem test_connection_model_not_loaded (self : OllamaTester)
    (w w0 w1 w2 w3 w4 : world_state E) (now : spec_float)
    (server_message model_message : string) :
  respond E time_time w = (now, w0) ->
  run E (check_internet_connectivity self) w0 = (Ret true, w1) ->
  (if is_remote self
   then exists remote_message,
       run E (check_remote_server urlparse_hostname self) w1
       = (Ret (true, remote_message), w2)
   else w2 = w1) ->
  run E (check_server_availability self) w2 = (Ret (true, server_message), w3) ->
  run E (check_model_status self "llama2") w3 = (Ret (false, model_message), w4) ->
  exists r,
    run E (test_connection urlparse_hostname self) w = (Ret r, w4)
    /\ status r = MODEL_NOT_LOADED
    /\ details r !! "internet"
       = Some {| available := true; message := "Internet is available" |}
    /\ details r !! "server"
       = Some {| available := true; message := server_message |}
    /\ details r !! "model"
       = Some {| available := false; message := model_message |}
    /\ (is_Some (details r !! "remote") <-> is_remote self = true).
Proof.
  intros Hclock Hnet Hgate Hserver Hmodel.
  past_remote_gate Hclock Hnet Hgate Hflag.
  all: rewrite run_bind, Hserver; cbn [negb run].
  all: rewrite run_bind, Hmodel; cbn [negb run].
  all: eexists; split; [reflexivity |].
  all: repeat (split; [vm_compute; reflexivity |]).
  all: remote_entry_iff.
Qed.

(** X17. When all checks pass, [test_connection] returns [CONNECTED] with
    the time read at the start and every entry available. *)
Theorem test_connection_connected (self : OllamaTester)
    (w w0 w1 w2 w3 w4 : world_state E) (now : spec_float)
    (server_message model_message : string) :
  respond E time_time w = (now, w0) ->
  run E (check_internet_connectivity self) w0 = (Ret true, w1) ->
  (if is_remote self
   then exists remote_message,
       run E (check_remote_server urlparse_hostname self) w1
       = (Ret (true, remote_message), w2)
   else w2 = w1) ->
  run E (check_server_availability self) w2 = (Ret (true, server_message), w3) ->
  run E (check_model_status self "llama2") w3 = (Ret (true, model_message), w4) ->
  exists r,
    run E (test_connection urlparse_hostname self) w = (Ret r, w4)
    /\ status r = CONNECTED
    /\ timestamp r = now
    /\ details r !! "internet"
       = Some {| available := true; message := "Internet is available" |}
    /\ details r !! "server"
       = Some {| available := true; message := server_message |}
    /\ details r !! "model"
       = Some {| available := true; message := model_message |}
    /\ (is_Some (details r !! "remote") <-> is_remote self = true).
Proof.
  intros Hclock Hnet Hgate Hserver Hmodel.
  past_remote_gate Hclock Hnet Hgate Hflag.
  all: rewrite run_bind, Hserver; cbn [negb run].
  all: rewrite run_bind, Hmodel; cbn [negb run].
  all: eexists; split; [reflexivity |].
  all: repeat (split; [vm_compute; reflexivity |]).
  all: remote_entry_iff.
Qed.

(** X18. Every report [test_connection] returns is consistent: it has an
    internet entry, unavailable exactly for [NO_INTERNET]; the status is
    [CONNECTED] exactly when every recorded entry is available; a local
    configuration has no remote entry; a model entry comes only with an
    available server entry. *)
Theorem test_connection_report_invariant (self : OllamaTester)
    (w w' : world_state E) (r : connection_results) :
  run E (test_connection urlparse_hostname self) w = (Ret r, w') ->
  (exists d, details r !! "internet" = Some d
             /\ (available d = false <-> status r = NO_INTERNET))
  /\ (status r = CONNECTED
      <-> forall key d, details r !! key = Some d -> available d = true)
  /\ (is_remote self = false -> details r !! "remote" = None)
  /\ (forall d, details r !! "model" = Some d ->
         exists s, details r !! "server" = Some s /\ available s = true).
Proof.
  unfold test_connection. cbn [invoke run bind].
  destruct (respond E time_time w) as [now w0].
  rewrite run_bind.
  destruct (run E (check_internet_connectivity self) w0) as [[[|] | e] w1];
    [| | discriminate]; cbn [negb].
  - rewrite run_bind.
    destruct (is_remote self) eqn:Hflag;
      [branch_on (check_remote_server urlparse_hostname self) |]; cbn [run].
    1, 3: branch_on (check_server_availability self).
    1, 3: branch_on (check_model_status self "llama2").
    all: intros [r_eq _]%returned_inj; subst r.
    all: split; [eexists; split; [vm_compute; reflexivity |];
                 split; intros Habs; discriminate Habs |].
    all: split;
      [ split;
        [ first [ discriminate
                | intros _ key d Hkey; cbn [details set_status set_detail] in Hkey;
                  repeat (apply lookup_insert_Some in Hkey as [[_ <-] | [_ Hkey]];
                          [reflexivity |]);
                  rewrite lookup_empty in Hkey; discriminate Hkey ]
        | intros Hall; first [reflexivity | refute_all_available Hall] ] |].
    all: split; [first [discriminate | intros _; vm_compute; reflexivity] |].
    all: intros d Hd;
      first [ vm_compute in Hd; discriminate Hd
            | eexists; split; vm_compute; reflexivity ].
  - intros [r_eq _]%returned_inj; subst r.
    split; [eexists; split; [vm_compute; reflexivity |]; split; reflexivity |].
    split; [split; [discriminate | intros Hall; refute_all_available Hall] |].
    split; [intros _; vm_compute; reflexivity |].
    intros d Hd. vm_compute in Hd. discriminate Hd.
Qed.

(** X19. The constructor fails with the [ValueError] of a base address
    that [urlparse] refuses, and with any exception of the resolver other
    than [gaierror]. *)
Theorem init_failures (url : string) (t : Z) (w : world_state E) :
  (forall text,
      urlparse_hostname url = InvalidURL text ->
      run E (__init__ urlparse_hostname url t) w = (Raise (Exn ValueError text), w))
  /\ (forall h e w',
         urlparse_hostname url = Hostname h ->
         among h ["localhost"; "127.0.0.1"] = false ->
         respond E (socket_gethostbyname h) w = (Raise e, w') ->
         isinstance e gaierror = false ->
         run E (__init__ urlparse_hostname url t) w = (Raise e, w')).
Proof.
  unfold __init__. rewrite run_bind, run_is_local_url. split.
  - intros text ->. reflexivity.
  - intros h e w' -> -> -> ->. reflexivity.
Qed.

(** X20. A constructed probe keeps the base address and the timeout as
    given, and the constructor calls the resolver once, or not at all for
    a loopback literal. *)
Theorem init_keeps_configuration (url : string) (t : Z)
    (w w' : world_state E) (self : OllamaTester) :
  run E (__init__ urlparse_hostname url t) w = (Ret self, w') ->
  base_url self = url /\ timeout self = t
  /\ exists h,
      urlparse_hostname url = Hostname h
      /\ calls E (__init__ urlparse_hostname url t) w
         = if among h ["localhost"; "127.0.0.1"] then []
           else [socket_gethostbyname h].
Proof.
  unfold __init__, _is_local_url. rewrite !run_bind, !calls_bind.
  destruct (urlparse_hostname url) as [h | text];
    cbn [hostname_of run calls app bind]; [| discriminate].
  destruct (among h _) eqn:Hlit; cbn [run calls app].
  { intros [<- _]%returned_inj. repeat split. exists h. rewrite Hlit. split; reflexivity. }
  rewrite run_try_except, calls_try_except. unfold gethostbyname.
  cbn [invoke run calls bind].
  destruct (respond E (socket_gethostbyname h) w) as [[a | e] w1];
    cbn [lift run calls bind except app].
  - intros [<- _]%returned_inj. repeat split. exists h. rewrite Hlit. split; reflexivity.
  - destruct (isinstance e gaierror); cbn [run calls app]; [| discriminate].
    intros [<- _]%returned_inj. repeat split. exists h. rewrite Hlit. split; reflexivity.
Qed.

(** The call each HTTP-based check makes. *)
Lemma calls_of_http_checks (self : OllamaTester) (w : world_state E)
    (name endpoint method : string) (data : option pyobj) :
  calls E (check_server_availability self) w = [tags_request self]
  /\ calls E (check_model_status self name) w = [tags_request self]
  /\ calls E (test_endpoint self endpoint method data) w
     = [requests_request method (base_url self +:+ endpoint) data (timeout self)].
Proof.
  assert (Hsilent : forall entries (w0 : world_state E),
             calls E (find_model name entries) w0 = []).
  { induction entries as [| entry rest IH]; intros w0; [reflexivity |].
    cbn [find_model]. rewrite calls_bind.
    destruct (get entry "name" PyNone) as [v | e]; cbn; [| reflexivity].
    destruct (eq_str v name); [reflexivity | apply IH]. }
  split; [| split].
  - unfold check_server_availability, requests_get, tags_request.
    rewrite calls_try_except. cbn [invoke run calls bind].
    destruct (respond E _ w) as [[response | e] w']; cbn [lift run calls bind except app].
    + destruct (status_code response =? 200)%Z; reflexivity.
    + destruct (isinstance e RequestException); reflexivity.
  - unfold check_model_status, requests_get, tags_request.
    rewrite calls_try_except. cbn [invoke run calls bind].
    destruct (respond E _ w) as [[response | e] w']; cbn [lift run calls bind except app].
    2: { destruct (isinstance e RequestException); reflexivity. }
    destruct (status_code response =? 200)%Z; [| reflexivity].
    destruct (json response) as [body | e]; cbn [lift run calls bind app].
    2: { destruct (isinstance e RequestException); reflexivity. }
    destruct (get body "models" (PyList [])) as [models | e];
      cbn [lift run calls bind app].
    2: { destruct (isinstance e RequestException); reflexivity. }
    destruct (iter models) as [entries | e]; cbn [lift run calls bind app].
    2: { destruct (isinstance e RequestException); reflexivity. }
    rewrite Hsilent. cbn [app].
    destruct (run_find_model_outcomes E name entries w') as (o & -> & Ho).
    destruct o as [r | e]; [reflexivity |].
    destruct (isinstance e RequestException); reflexivity.
  - unfold test_endpoint. rewrite calls_try_except. cbn [invoke run calls bind].
    destruct (respond E _ w) as [[response | e] w']; cbn [lift run calls bind except app].
    + destruct (status_code response =? 401)%Z; [reflexivity |].
      destruct (status_code response =? 404)%Z; [reflexivity |].
      destruct (status_code response >=? 500)%Z; [reflexivity |].
      destruct (status_code response >=? 400)%Z; reflexivity.
    + destruct (isinstance e Timeout); [reflexivity |].
      destruct (isinstance e RequestException); reflexivity.
Qed.

(** X12. Each HTTP-based check sends exactly one request, whatever the
    answer: there is no retry. *)
Theorem http_checks_make_one_request (self : OllamaTester) (w : world_state E)
    (name endpoint method : string) (data : option pyobj) :
  calls E (check_server_availability self) w = [tags_request self]
  /\ calls E (check_model_status self name) w = [tags_request self]
  /\ calls E (test_endpoint self endpoint method data) w
     = [requests_request method (base_url self +:+ endpoint) data (timeout self)].
Proof. apply calls_of_http_checks. Qed.

(** X13. Once the server check has passed, [test_connection] has sent the
    tags request twice, once for the server check and once for the model
    check, after the clock, the connection to 8.8.8.8 and, for a remote
    configuration, the calls of the remote check. *)
Theorem test_connection_fetches_tags_twice (self : OllamaTester)
    (w w0 w1 w2 w3 : world_state E) (now : spec_float) (server_message : string) :
  respond E time_time w = (now, w0) ->
  run E (check_internet_connectivity self) w0 = (Ret true, w1) ->
  (if is_remote self
   then exists remote_message,
       run E (check_remote_server urlparse_hostname self) w1
       = (Ret (true, remote_message), w2)
   else w2 = w1) ->
  run E (check_server_availability self) w2 = (Ret (true, server_message), w3) ->
  calls E (test_connection urlparse_hostname self) w
  = (time_time :: socket_create_connection ("8.8.8.8", 53) 3
       :: (if is_remote self
           then calls E (check_remote_server urlparse_hostname self) w1
           else [])
       ++ [tags_request self; tags_request self])%list.
Proof.
  intros Hclock Hnet Hgate Hserver.
  pose proof (fun name w0 =>
                calls_of_http_checks self w0 name "" "" None) as Hcalls.
  unfold test_connection. cbn [invoke calls bind].
  rewrite Hclock, calls_bind, Hnet, (check_internet_connectivity_calls E self w0).
  cbn [negb app]. do 2 f_equal. rewrite calls_bind.
  destruct (is_remote self).
  - destruct Hgate as [remote_message Hgate].
    rewrite calls_bind, run_bind, Hgate. cbn [negb run calls].
    rewrite app_nil_r. f_equal.
    rewrite calls_bind, Hserver. cbn [negb].
    destruct (Hcalls "llama2" w2) as (-> & _). rewrite calls_bind.
    destruct (Hcalls "llama2" w3) as (_ & -> & _).
    destruct (run E (check_model_status self "llama2") w3) as [[[[|] mm] | e] w4];
      reflexivity.
  - subst w2. cbn [run calls app].
    rewrite calls_bind, Hserver. cbn [negb].
    destruct (Hcalls "llama2" w1) as (-> & _). rewrite calls_bind.
    destruct (Hcalls "llama2" w3) as (_ & -> & _).
    destruct (run E (check_model_status self "llama2") w3) as [[[[|] mm] | e] w4];
      reflexivity.
Qed.

(** X14. A probe constructed on a base address whose host is "localhost"
    or "127.0.0.1" passes [check_remote_server] without any call: neither
    the resolver nor ping is used. *)
Theorem loopback_probe_never_pings (url : string) (t : Z) (w : world_state E)
    (h : option string) :
  urlparse_hostname url = Hostname h ->
  among h ["localhost"; "127.0.0.1"] = true ->
  run E (let* self := __init__ urlparse_hostname url t in
         check_remote_server urlparse_hostname self) w
  = (Ret (true, "Local server, no ping test needed"), w)
  /\ calls E (let* self := __init__ urlparse_hostname url t in
              check_remote_server urlparse_hostname self) w = [].
Proof.
  intros Hhost Hlit. rewrite run_bind, calls_bind.
  unfold __init__, _is_local_url.
  rewrite !run_bind, !calls_bind, Hhost. cbn [hostname_of run calls bind app].
  rewrite Hlit. cbn [run calls app negb]. split; reflexivity.
Qed.

(** X21. Every report [get_detailed_status] returns copies the base
    address, timeout and remote flag of the configuration, and its tests
    hold the internet flag, an entry for each of the three endpoints and a
    remote entry exactly for a remote configuration: five or four entries. *)
Theorem get_detailed_status_report_shape (self : OllamaTester)
    (w w' : world_state E) (st : detailed_status) :
  run E (get_detailed_status urlparse_hostname self) w = (Ret st, w') ->
  ds_base_url st = base_url self
  /\ ds_timeout st = timeout self
  /\ ds_is_remote st = is_remote self
  /\ (exists flag, tests st !! "internet" = Some (InternetFlag flag))
  /\ (forall endpoint, In endpoint endpoints ->
         exists success msg, tests st !! endpoint = Some (EndpointEntry success msg))
  /\ (if is_remote self
      then exists avail msg, tests st !! "remote" = Some (RemoteEntry avail msg)
      else tests st !! "remote" = None)
  /\ size (tests st) = (if is_remote self then 5 else 4)%nat.
Proof.
  unfold get_detailed_status, endpoints. cbn [invoke run bind test_endpoints].
  destruct (respond E time_time w) as [now w0].
  rewrite run_bind.
  destruct (run E (check_internet_connectivity self) w0) as [[internet | e] w1];
    [| discriminate].
  rewrite run_bind.
  destruct (is_remote self) eqn:Hflag.
  1: rewrite run_bind;
     destruct (run E (check_remote_server urlparse_hostname self) w1)
       as [[[ra rm] | e] w2]; [| discriminate].
  all: cbn [run]; rewrite run_bind;
    destruct (run E (test_endpoint self "/api/tags" "GET" None) _)
      as [[[s1 m1] | e] w3]; [| discriminate].
  all: rewrite run_bind;
    destruct (run E (test_endpoint self "/api/version" "GET" None) _)
      as [[[s2 m2] | e] w4]; [| discriminate].
  all: rewrite run_bind;
    destruct (run E (test_endpoint self "/api/health" "GET" None) _)
      as [[[s3 m3] | e] w5]; [| discriminate].
  all: cbn [run]; intros [<- _]%returned_inj.
  all: split; [reflexivity |]; split; [reflexivity |]; split; [cbn; congruence |].
  all: split; [eexists; vm_compute; reflexivity |].
  all: split;
    [ intros endpoint [<- | [<- | [<- | []]]]; eexists _, _; vm_compute; reflexivity |].
  all: split; [first [eexists _, _; vm_compute; reflexivity | vm_compute; reflexivity] |].
  all: vm_compute; reflexivity.
Qed.
End MoreProperties.

(** ** The further properties on concrete worlds *)

Lemma check_internet_connectivity_outcome_witness :
  run (scripted offline) (check_internet_connectivity local_probe) []
  = (Ret false, []).
Proof.
  apply (check_internet_connectivity_outcome (scripted offline) local_probe [] []
           (Raise (Exn OSError "[Errno 101] Network is unreachable")) eq_refl).
Defined.

Lemma check_remote_server_local_makes_no_call_witness :
  run (scripted unreachable) (check_remote_server example_urlparse local_probe) []
  = (Ret (true, "Local server, no ping test needed"), [])
  /\ calls (scripted unreachable) (check_remote_server example_urlparse local_probe) []
     = [].
Proof.
  apply (check_remote_server_local_makes_no_call example_urlparse
           (scripted unreachable) local_probe [] eq_refl).
Defined.

Lemma check_remote_server_follows_ping_witness :
  run (scripted unreachable) (check_remote_server example_urlparse remote_probe) []
  = (Ret (false,
          "Remote server ping failed: "
            +:+ "Failed to ping ollama.example.com: ping: unknown host"), [])
  /\ calls (scripted unreachable) (check_remote_server example_urlparse remote_probe) []
     = calls (scripted unreachable)
             (ping_host example_urlparse remote_probe (Some "ollama.example.com") 4) [].
Proof.
  apply (check_remote_server_follows_ping example_urlparse (scripted unreachable)
           remote_probe [] [] (Some "ollama.example.com") false
           "Failed to ping ollama.example.com: ping: unknown host");
    reflexivity.
Defined.

Lemma ping_host_command_witness :
  calls (scripted on_windows)
        (ping_host example_urlparse remote_probe
                   (Some "http://ollama.example.com:11434") 2) []
  = [platform_system;
     subprocess_run [Some "ping"; Some "-n"; Some "2"; Some "ollama.example.com"] 30].
Proof.
  apply (ping_host_command example_urlparse (scripted on_windows) remote_probe
           "http://ollama.example.com:11434" 2 [] []
           (Some "ollama.example.com") "Windows"); reflexivity.
Defined.

Lemma ping_host_exit_code_witness :
  run (scripted unreachable)
      (ping_host example_urlparse remote_probe (Some "ollama.example.com") 4) []
  = (Ret (false, "Failed to ping ollama.example.com: ping: unknown host"), []).
Proof.
  apply (ping_host_exit_code example_urlparse (scripted unreachable) remote_probe
           "ollama.example.com" 4 [] [] [] (Some "ollama.example.com") "Linux"
           {| returncode := 1; stdout := ""; stderr := "ping: unknown host" |});
    reflexivity.
Defined.

Lemma ping_host_failure_messages_witness :
  run (scripted ping_times_out)
      (ping_host example_urlparse remote_probe (Some "ollama.example.com") 4) []
  = (Ret (false, "Ping timeout for ollama.example.com"), []).
Proof.
  apply (ping_host_failure_messages example_urlparse (scripted ping_times_out)
           remote_probe "ollama.example.com" 4 [] [] []
           (Some "ollama.example.com") "Linux"
           (Exn TimeoutExpired "Command 'ping' timed out after 30 seconds"));
    reflexivity.
Defined.

Lemma ping_host_without_target_witness :
  run (scripted healthy) (ping_host strict_urlparse remote_probe (Some "http://[::1") 4) []
  = (Ret (false, "Error pinging http://[::1: Invalid IPv6 URL"), [])
  /\ calls (scripted healthy)
           (ping_host strict_urlparse remote_probe (Some "http://[::1") 4) [] = [].
Proof.
  destruct (ping_host_without_target strict_urlparse (scripted healthy)
              remote_probe 4 []) as [_ Hinvalid].
  apply (Hinvalid "http://[::1" "Invalid IPv6 URL"). reflexivity.
Defined.

Lemma check_server_availability_iff_200_witness :
  run (scripted teapot) (check_server_availability local_probe) []
  = (Ret (false, "Server returned status code: 418"), []).
Proof.
  destruct (check_server_availability_iff_200 (scripted teapot) local_probe [] []
              (Ret {| status_code := 418; json := Ret PyNone |}) eq_refl)
    as [_ Hother].
  apply (Hother _ eq_refl). discriminate.
Defined.

Lemma check_model_status_other_status_witness :
  run (scripted teapot) (check_model_status local_probe "llama2") []
  = (Ret (false, "Failed to check model status: 418"), []).
Proof.
  apply (check_model_status_other_status (scripted teapot) local_probe "llama2"
           [] [] {| status_code := 418; json := Ret PyNone |} eq_refl).
  discriminate.
Defined.

Lemma check_model_status_null_models_witness :
  run (scripted null_models) (check_model_status local_probe "llama2") []
  = (Raise (Exn TypeError "'NoneType' object is not iterable"), []).
Proof.
  apply (check_model_status_null_models (scripted null_models) local_probe "llama2"
           [] [] (tags_response (PyDict [("models", PyNone)]))
           [("models", PyNone)]); reflexivity.
Defined.

Lemma test_endpoint_success_iff_below_400_witness :
  exists msg,
    run (scripted healthy) (test_endpoint local_probe "/api/version" "GET" None) []
    = (Ret (true, msg), []).
Proof.
  apply (test_endpoint_success_iff_below_400 (scripted healthy) local_probe
           "/api/version" "GET" None [] [] (Ret (tags_response llama2_body)) eq_refl).
  eexists. split; [reflexivity | cbn; lia].
Defined.

Lemma test_connection_server_unreachable_witness :
  exists r,
    run (scripted server_down) (test_connection example_urlparse local_probe) []
    = (Ret r, [3%nat])
    /\ status r = SERVER_UNREACHABLE
    /\ details r !! "internet"
       = Some {| available := true; message := "Internet is available" |}
    /\ details r !! "server"
       = Some {| available := false;
                 message := "Server is not reachable: Connection refused" |}
    /\ details r !! "model" = None
    /\ (is_Some (details r !! "remote") <-> is_remote local_probe = true).
Proof.
  apply (test_connection_server_unreachable example_urlparse (scripted server_down)
           local_probe [] [] [3%nat] [3%nat] [3%nat] (clock server_down));
    reflexivity.
Defined.

Lemma test_connection_model_not_loaded_witness :
  exists r,
    run (scripted no_models) (test_connection example_urlparse local_probe) []
    = (Ret r, [3%nat])
    /\ status r = MODEL_NOT_LOADED
    /\ details r !! "internet"
       = Some {| available := true; message := "Internet is available" |}
    /\ details r !! "server"
       = Some {| available := true; message := "Server is available and responding" |}
    /\ details r !! "model"
       = Some {| available := false; message := "Model llama2 is not loaded" |}
    /\ (is_Some (details r !! "remote") <-> is_remote local_probe = true).
Proof.
  apply (test_connection_model_not_loaded example_urlparse (scripted no_models)
           local_probe [] [] [3%nat] [3%nat] [3%nat] [3%nat] (clock no_models));
    reflexivity.
Defined.

Lemma test_connection_connected_witness :
  exists r,
    run (scripted healthy) (test_connection example_urlparse remote_probe) []
    = (Ret r, [3%nat])
    /\ status r = CONNECTED
    /\ timestamp r = clock healthy
    /\ details r !! "internet"
       = Some {| available := true; message := "Internet is available" |}
    /\ details r !! "server"
       = Some {| available := true; message := "Server is available and responding" |}
    /\ details r !! "model"
       = Some {| available := true; message := "Model llama2 is available" |}
    /\ (is_Some (details r !! "remote") <-> is_remote remote_probe = true).
Proof.
  apply (test_connection_connected example_urlparse (scripted healthy)
           remote_probe [] [] [3%nat] [3%nat] [3%nat] [3%nat] (clock healthy));
    [reflexivity | reflexivity | eexists; reflexivity | reflexivity | reflexivity].
Defined.

Lemma test_connection_report_invariant_witness :
  exists r,
    fst (run (scripted no_models) (test_connection example_urlparse remote_probe) [])
    = Ret r
    /\ (exists d, details r !! "internet" = Some d
                  /\ (available d = false <-> status r = NO_INTERNET))
    /\ (status r = CONNECTED
        <-> forall key d, details r !! key = Some d -> available d = true)
    /\ (is_remote remote_probe = false -> details r !! "remote" = None)
    /\ (forall d, details r !! "model" = Some d ->
          exists s, details r !! "server" = Some s /\ available s = true).
Proof.
  destruct (run (scripted no_models) (test_connection example_urlparse remote_probe) [])
    as [[r | e] w'] eqn:Hrun; [| vm_compute in Hrun; discriminate Hrun].
  exists r. split; [reflexivity |].
  apply (test_connection_report_invariant example_urlparse (scripted no_models)
           remote_probe [] w' r Hrun).
Defined.

Lemma test_connection_fetches_tags_twice_witness :
  calls (scripted no_models) (test_connection example_urlparse remote_probe) []
  = [time_time;
     socket_create_connection ("8.8.8.8", 53) 3;
     platform_system;
     subprocess_run [Some "ping"; Some "-c"; Some "4"; Some "ollama.example.com"] 30;
     requests_request "get" "http://ollama.example.com:11434/api/tags" None 30;
     requests_request "get" "http://ollama.example.com:11434/api/tags" None 30].
Proof.
  apply (test_connection_fetches_tags_twice example_urlparse (scripted no_models)
           remote_probe [] [] [3%nat] [3%nat] [3%nat] (clock no_models)
           "Server is available and responding");
    [reflexivity | reflexivity | eexists; reflexivity | reflexivity].
Defined.

Lemma init_failures_witness :
  run (scripted healthy) (__init__ strict_urlparse "http://[::1" 30) []
  = (Raise (Exn ValueError "Invalid IPv6 URL"), [])
  /\ run (scripted resolver_rejects) (__init__ strict_urlparse "localhost:11434" 30) []
     = (Raise (Exn TypeError "gethostbyname() argument 1 must be str"), []).
Proof.
  split.
  - destruct (init_failures strict_urlparse (scripted healthy) "http://[::1" 30 [])
      as [Hinvalid _].
    apply Hinvalid. reflexivity.
  - destruct (init_failures strict_urlparse (scripted resolver_rejects)
                "localhost:11434" 30 []) as [_ Hresolver].
    apply (Hresolver None); reflexivity.
Defined.

Lemma init_keeps_configuration_witness :
  base_url remote_probe = "http://ollama.example.com:11434"
  /\ timeout remote_probe = 30
  /\ exists h,
      example_urlparse "http://ollama.example.com:11434" = Hostname h
      /\ calls (scripted healthy)
               (__init__ example_urlparse "http://ollama.example.com:11434" 30) []
         = if among h ["localhost"; "127.0.0.1"] then []
           else [socket_gethostbyname h].
Proof.
  apply (init_keeps_configuration example_urlparse (scripted healthy)
           "http://ollama.example.com:11434" 30 [] [] remote_probe).
  reflexivity.
Defined.

Lemma loopback_probe_never_pings_witness :
  run (scripted unreachable)
      (let* self := __init__ example_urlparse "http://localhost:11434" 30 in
       check_remote_server example_urlparse self) []
  = (Ret (true, "Local server, no ping test needed"), [])
  /\ calls (scripted unreachable)
           (let* self := __init__ example_urlparse "http://localhost:11434" 30 in
            check_remote_server example_urlparse self) [] = [].
Proof.
  apply (loopback_probe_never_pings example_urlparse (scripted unreachable)
           "http://localhost:11434" 30 [] (Some "localhost")); reflexivity.
Defined.

Lemma get_detailed_status_report_shape_witness :
  exists st,
    fst (run (scripted offline) (get_detailed_status example_urlparse remote_probe) [])
    = Ret st
    /\ ds_base_url st = base_url remote_probe
    /\ ds_timeout st = timeout remote_probe
    /\ ds_is_remote st = is_remote remote_probe
    /\ (exists flag, tests st !! "internet" = Some (InternetFlag flag))
    /\ (forall endpoint, In endpoint endpoints ->
          exists success msg, tests st !! endpoint = Some (EndpointEntry success msg))
    /\ (if is_remote remote_probe
        then exists avail msg, tests st !! "remote" = Some (RemoteEntry avail msg)
        else tests st !! "remote" = None)
    /\ size (tests st) = (if is_remote remote_probe then 5 else 4)%nat.
Proof.
  destruct (run (scripted offline) (get_detailed_status example_urlparse remote_probe) [])
    as [[st | e] w'] eqn:Hrun; [| vm_compute in Hrun; discriminate Hrun].
  exists st. split; [reflexivity |].
  apply (get_detailed_status_report_shape example_urlparse (scripted offline)
           remote_probe [] w' st Hrun).
Defined.
